(** * colorful-platformer: the per-frame simulation of [src/main.js]

    A shallow embedding of the gameplay part of [main.js] (the classes
    [Platform], [Coin] and [Player], [createLevel], [updateGame] and the
    key-state object) together with the properties of the simulation step.

    Modelling choices.
    - JavaScript numbers are modelled as exact rationals ([Q]): every
      arithmetic operation of the source is the corresponding operation on
      [Q], without rounding and without NaN or infinities.  Statements about
      numbers therefore use [==], [<] and [<=] of [Q].  The literals 0.5, 0.8
      and 0.05 are the rationals 1/2, 4/5 and 1/20.  Sums and products of
      multiples of 1/2 are the same in both arithmetics; the product of
      friction and the sums that follow it are rounded by JavaScript, so
      statements about those values are made with a margin ([rounding_slack],
      [margin]) that covers the rounding, and the runs used as examples hold
      a direction in every frame, or none from rest, so that they are exact.
    - [canvas.height] comes from the HTML page, which is not part of the
      sources; it is a parameter [canvas_height] of everything that reads it.
    - [keys] is a JavaScript object used as a map from [event.code] to a
      boolean: a [gmap string bool]; a code that was never pressed is
      [undefined], which is falsy.
    - [platforms] is filled once by [createLevel] and never changed; [coins]
      is filled by [createLevel] and shrinks by [splice]; it is part of the
      game state together with [player], [score] and [win].
    - Drawing ([draw], [drawBackground], [drawGame]) and the two DOM labels
      are presentation only and are left out. *)

From Stdlib Require Import QArith Qabs Qminmax Qfield Lqa ZArith.
From stdpp Require Import gmap strings list.

(** ** Numbers: the comparison operators of the source as booleans *)

Definition Qltb (a b : Q) : bool :=
  match (a ?= b)%Q with Lt => true | _ => false end.
Definition Qleb (a b : Q) : bool :=
  match (a ?= b)%Q with Gt => false | _ => true end.
Definition Qgtb (a b : Q) : bool := Qltb b a.
Definition Qgeb (a b : Q) : bool := Qleb b a.

Declare Scope js_scope.
Delimit Scope js_scope with js.
Notation "a <? b" := (Qltb a b) (at level 70, no associativity) : js_scope.
Notation "a <=? b" := (Qleb a b) (at level 70, no associativity) : js_scope.
Notation "a >? b" := (Qgtb a b) (at level 70, no associativity) : js_scope.
Notation "a >=? b" := (Qgeb a b) (at level 70, no associativity) : js_scope.

(** ** Input state: [const keys = {}] and its two listeners *)

Module Keys.
Abbreviation t := (gmap string bool).

Definition empty : t := ∅.
(** [keys[e.code] = true] *)
Definition keydown (code : string) (keys : t) : t := <[code := true]> keys.
(** [keys[e.code] = false] *)
Definition keyup (code : string) (keys : t) : t := <[code := false]> keys.
(** Truthiness of [keys[code]]: [undefined] (absent) is falsy.  The object
    also inherits the names of [Object.prototype] (such as [toString]), which
    no keyboard event carries as its code and [update] never reads; the map
    stands for the own properties only. *)
Definition held (keys : t) (code : string) : bool := default false (keys !! code).

Definition left (keys : t) : bool := held keys "ArrowLeft" || held keys "KeyA".
Definition right (keys : t) : bool := held keys "ArrowRight" || held keys "KeyD".
Definition jump (keys : t) : bool :=
  held keys "ArrowUp" || held keys "KeyW" || held keys "Space".
End Keys.

(** ** World, platforms and coins *)

Module World.
Record t := mk { width : Q; height : Q; gravity : Q }.
End World.

Definition world (canvas_height : Q) : World.t :=
  {| World.width := 3000; World.height := canvas_height; World.gravity := 0.5 |}.

Module Platform.
Record t := new { x : Q; y : Q; w : Q; h : Q }.
End Platform.

Module Coin.
Record t := mk { x : Q; y : Q; r : Q }.
(** [constructor(x, y, r = 10)] *)
Definition new (x y : Q) : t := mk x y 10.
End Coin.

(** [createLevel]: the nine platforms and eight coins, in push order. *)
Definition platforms (canvas_height : Q) : list Platform.t :=
  let W := World.width (world canvas_height) in
  [ Platform.new 0 (canvas_height - 50) W 50;
    Platform.new 250 (canvas_height - 120) 120 20;
    Platform.new 500 (canvas_height - 200) 120 20;
    Platform.new 800 (canvas_height - 150) 120 20;
    Platform.new 1100 (canvas_height - 250) 150 20;
    Platform.new 1500 (canvas_height - 180) 160 20;
    Platform.new 1850 (canvas_height - 100) 100 20;
    Platform.new 2100 (canvas_height - 220) 180 20;
    Platform.new 2500 (canvas_height - 160) 120 20 ]%Q.

Definition level_coins (canvas_height : Q) : list Coin.t :=
  [ Coin.new 300 (canvas_height - 160);
    Coin.new 530 (canvas_height - 240);
    Coin.new 840 (canvas_height - 200);
    Coin.new 1150 (canvas_height - 300);
    Coin.new 1520 (canvas_height - 230);
    Coin.new 1870 (canvas_height - 140);
    Coin.new 2130 (canvas_height - 260);
    Coin.new 2530 (canvas_height - 200) ]%Q.

(** ** The player *)

Module Player.
Record t := mk {
  w : Q; h : Q; x : Q; y : Q; vx : Q; vy : Q;
  speed : Q; jumpStrength : Q; onGround : bool }.

(** [constructor()] *)
Definition new : t :=
  {| w := 40; h := 60; x := 50; y := 0; vx := 0; vy := 0;
     speed := 4; jumpStrength := 12; onGround := false |}.

(** Field assignments [this.f = v]. *)
Definition set_x (v : Q) (p : t) : t :=
  mk (w p) (h p) v (y p) (vx p) (vy p) (speed p) (jumpStrength p) (onGround p).
Definition set_y (v : Q) (p : t) : t :=
  mk (w p) (h p) (x p) v (vx p) (vy p) (speed p) (jumpStrength p) (onGround p).
Definition set_vx (v : Q) (p : t) : t :=
  mk (w p) (h p) (x p) (y p) v (vy p) (speed p) (jumpStrength p) (onGround p).
Definition set_vy (v : Q) (p : t) : t :=
  mk (w p) (h p) (x p) (y p) (vx p) v (speed p) (jumpStrength p) (onGround p).
Definition set_onGround (b : bool) (p : t) : t :=
  mk (w p) (h p) (x p) (y p) (vx p) (vy p) (speed p) (jumpStrength p) b.

(** [respawn()] *)
Definition respawn (p : t) : t :=
  set_vy 0 (set_vx 0 (set_y 0 (set_x 50 p))).

(** The phases of [update()], in source order. *)
Section Update.
Variable canvas_height : Q.
Variable keys : Keys.t.

(** Lines 152-165: the two key tests, then friction when not [moving]. *)
Definition steer (p : t) : t :=
  let moving := false in
  let '(p, moving) :=
    if Keys.left keys then (set_vx (- speed p) p, true) else (p, moving) in
  let '(p, moving) :=
    if Keys.right keys then (set_vx (speed p) p, true) else (p, moving) in
  if negb moving then
    let p := set_vx (vx p * 0.8) p in
    if (Qabs (vx p) <? 0.05)%js then set_vx 0 p else p
  else p.

(** Line 167: [this.x += this.vx]. *)
Definition move_x (p : t) : t := set_x (x p + vx p) p.

(** Lines 170-176: keep the player inside the world. *)
Definition clamp_x (p : t) : t :=
  if (x p <? 0)%js then set_vx 0 (set_x 0 p)
  else if (x p + w p >? World.width (world canvas_height))%js
       then set_vx 0 (set_x (World.width (world canvas_height) - w p) p)
       else p.

(** Lines 179-182: jumping. *)
Definition jump (p : t) : t :=
  if Keys.jump keys && onGround p
  then set_onGround false (set_vy (- jumpStrength p) p)
  else p.

(** Lines 185-186: gravity, then [this.y += this.vy]. *)
Definition fall (p : t) : t :=
  let p := set_vy (vy p + World.gravity (world canvas_height)) p in
  set_y (y p + vy p) p.

(** Lines 189-191: below the canvas, reset. *)
Definition fail_check (p : t) : t :=
  if (y p >? canvas_height + 200)%js then respawn p else p.

(** Lines 197-203: the landing test against one platform. *)
Definition lands_on (p : t) (plat : Platform.t) : bool :=
  (vy p >=? 0)%js &&
  (x p + w p >? Platform.x plat)%js &&
  (x p <? Platform.x plat + Platform.w plat)%js &&
  (y p + h p <=? Platform.y plat + 5)%js &&
  (y p + h p + vy p >=? Platform.y plat)%js.

(** Lines 204-206: the body of the [if]. *)
Definition snap (plat : Platform.t) (p : t) : t :=
  set_onGround true (set_vy 0 (set_y (Platform.y plat - h p) p)).

(** One iteration of [for (const plat of platforms)]. *)
Definition collide (p : t) (plat : Platform.t) : t :=
  if lands_on p plat then snap plat p else p.

(** Lines 194-208. *)
Definition collisions (plats : list Platform.t) (p : t) : t :=
  fold_left collide plats (set_onGround false p).

Definition update (p : t) : t :=
  collisions (platforms canvas_height)
    (fail_check (fall (jump (clamp_x (move_x (steer p)))))).

(** Two views of [update] used to speak about the middle of a frame:
    the player when the [for] loop starts, and the player when the loop
    reaches platform number [n]. *)
Definition before_loop (p : t) : t :=
  set_onGround false (fail_check (fall (jump (clamp_x (move_x (steer p)))))).
Definition at_platform (n : nat) (p : t) : t :=
  fold_left collide (take n (platforms canvas_height)) (before_loop p).
End Update.

(** The four fields that [update] never assigns keep the values the
    constructor gave them. *)
Definition as_built (p : t) : Prop :=
  w p = 40%Q /\ h p = 60%Q /\ speed p = 4%Q /\ jumpStrength p = 12%Q.
End Player.

(** ** The game state and [updateGame] *)

Module Game.
Record t := mk {
  player : Player.t; coins : list Coin.t; score : Z; win : bool }.
End Game.

(** The state after [createLevel()] and the two [let]s. *)
Definition initial (canvas_height : Q) : Game.t :=
  {| Game.player := Player.new; Game.coins := level_coins canvas_height;
     Game.score := 0; Game.win := false |}.

(** Lines 284-289: the player's box against the coin's square. *)
Definition touches (p : Player.t) (coin : Coin.t) : bool :=
  (Player.x p <? Coin.x coin + Coin.r coin)%js &&
  (Player.x p + Player.w p >? Coin.x coin - Coin.r coin)%js &&
  (Player.y p <? Coin.y coin + Coin.r coin)%js &&
  (Player.y p + Player.h p >? Coin.y coin - Coin.r coin)%js.

(** Lines 281-293: [for (let i = coins.length - 1; i >= 0; i--)].  The
    argument [n] is [i + 1]; [coins.splice(i, 1)] is [delete i].  An index
    past the end would make [coin] undefined; [collect_in_range] below shows
    that the loop never reads one. *)
Fixpoint collect (p : Player.t) (n : nat) (coins : list Coin.t) (score : Z)
  : list Coin.t * Z :=
  match n with
  | O => (coins, score)
  | S i =>
      match coins !! i with
      | Some coin =>
          if touches p coin
          then collect p i (delete i coins) (score + 10)%Z
          else collect p i coins score
      | None => collect p i coins score
      end
  end.

(** Line 295: the win test. *)
Definition at_goal (canvas_height : Q) (p : Player.t) : bool :=
  (Player.x p + Player.w p >? World.width (world canvas_height) - 50)%js.

Definition updateGame (canvas_height : Q) (keys : Keys.t) (g : Game.t) : Game.t :=
  if negb (Game.win g) then
    let p := Player.update canvas_height keys (Game.player g) in
    let '(cs, sc) := collect p (length (Game.coins g)) (Game.coins g) (Game.score g) in
    let win := if at_goal canvas_height p then true else Game.win g in
    Game.mk p cs sc win
  else g.

(** [gameLoop]: one [updateGame] per animation frame; the listeners may
    change [keys] between frames, so a run is driven by the list of key
    states seen by the successive frames. *)
Definition run (canvas_height : Q) (frames : list Keys.t) (g : Game.t) : Game.t :=
  fold_left (fun g keys => updateGame canvas_height keys g) frames g.

(** The states the game can be in. *)
Inductive reachable (canvas_height : Q) : Game.t -> Prop :=
| reachable_initial : reachable canvas_height (initial canvas_height)
| reachable_frame keys g :
    reachable canvas_height g ->
    reachable canvas_height (updateGame canvas_height keys g).

(** ** A complete play-through

    Key states used by the scripted run below. *)
Definition idle : Keys.t := Keys.empty.
Definition go_left : Keys.t := Keys.keydown "ArrowLeft" Keys.empty.
Definition go_right : Keys.t := Keys.keydown "ArrowRight" Keys.empty.
Definition both_ways : Keys.t := Keys.keydown "ArrowRight" go_left.
Definition press_jump : Keys.t := Keys.keydown "Space" Keys.empty.
Definition go_right_jump : Keys.t := Keys.keydown "Space" go_right.

(** Hold right throughout and press jump on eight chosen frames.  Since a
    direction is held in every frame, friction never runs, and every number
    of this run is a multiple of 1/2 below 3000: the rational model and the
    double-precision arithmetic of JavaScript agree on it exactly. *)
Definition playthrough : list Keys.t :=
  replicate 59 go_right ++ [go_right_jump] ++
  replicate 46 go_right ++ [go_right_jump] ++
  replicate 75 go_right ++ [go_right_jump] ++
  replicate 34 go_right ++ [go_right_jump] ++
  replicate 138 go_right ++ [go_right_jump] ++
  replicate 75 go_right ++ [go_right_jump] ++
  replicate 41 go_right ++ [go_right_jump] ++
  replicate 138 go_right ++ [go_right_jump] ++
  replicate 46 go_right.

(** The state in which the play-through ends: standing on the ground at
    x = 2690 with every coin collected. *)
Definition all_collected : Game.t :=
  {| Game.player :=
       {| Player.w := 40; Player.h := 60; Player.x := 2690; Player.y := 340;
          Player.vx := 4; Player.vy := 0; Player.speed := 4;
          Player.jumpStrength := 12; Player.onGround := true |};
     Game.coins := []; Game.score := 80; Game.win := false |}.

(** The friction rule in the words of the specification: multiply by 0.8 and
    snap to 0 below 0.05. *)
Definition friction (v : Q) : Q :=
  let v' := (v * 0.8)%Q in if (Qabs v' <? 0.05)%js then 0%Q else v'.

(** The landing test in the words of claim C4: [before] is the player
    before [this.y += this.vy] has run in the frame, [after] the player after
    it.  The tolerance is tested on the bottom edge before the move, the
    reach on the bottom edge after the move. *)
Definition claimed_swept_test (before after : Player.t) (plat : Platform.t) : Prop :=
  (0 <= Player.vy after /\
   Platform.x plat < Player.x after + Player.w after /\
   Player.x after < Platform.x plat + Platform.w plat /\
   Player.y before + Player.h before <= Platform.y plat + 5 /\
   Platform.y plat <= Player.y after + Player.h after)%Q.

(** ** Auxiliary definitions for the statements *)

(** The four fields of the player that no phase of [update] assigns. *)
Definition dims (p : Player.t) : Q * Q * Q * Q :=
  (Player.w p, Player.h p, Player.speed p, Player.jumpStrength p).

(** What one iteration of the landing loop never touches. *)
Definition same_frame (p q : Player.t) : Prop :=
  Player.w q = Player.w p /\ Player.h q = Player.h p /\
  Player.x q = Player.x p /\ Player.vx q = Player.vx p /\
  Player.speed q = Player.speed p /\
  Player.jumpStrength q = Player.jumpStrength p.

(** What holds in every state of a game. *)
Definition sound (canvas_height : Q) (g : Game.t) : Prop :=
  Player.as_built (Game.player g) /\
  (0 <= Player.x (Game.player g) /\
   Player.x (Game.player g)
     <= World.width (world canvas_height) - Player.w (Game.player g))%Q /\
  sublist (Game.coins g) (level_coins canvas_height) /\
  (Game.score g + 10 * Z.of_nat (length (Game.coins g)) = 80)%Z.

(** A state in which the game is won: the player has walked on from
    [all_collected] to the right-hand end of the world. *)
Definition at_the_goal : Game.t :=
  {| Game.player :=
       {| Player.w := 40; Player.h := 60; Player.x := 2914; Player.y := 340;
          Player.vx := 4; Player.vy := 0; Player.speed := 4;
          Player.jumpStrength := 12; Player.onGround := true |};
     Game.coins := []; Game.score := 80; Game.win := true |}.

(** ** Margins for double-precision rounding

    One unit in the last place of a double between 1 and 2, 2^-52: the
    product [vx * 0.8] as JavaScript stores it differs from the exact
    product by less than this fraction of [|vx|]. *)
Definition rounding_slack : Q := 1 # 4503599627370496.

(** A margin far above the rounding error of one sum of numbers below 4096
    (which is at most 2^-42). *)
Definition margin : Q := 0.000000001.

(** The player's box overlaps the coin's square, or misses it, by more than
    [margin] on the axis that decides. *)
Definition clearly_touches (p : Player.t) (coin : Coin.t) : Prop :=
  (Player.x p + margin <= Coin.x coin + Coin.r coin /\
   Coin.x coin - Coin.r coin + margin <= Player.x p + Player.w p /\
   Player.y p + margin <= Coin.y coin + Coin.r coin /\
   Coin.y coin - Coin.r coin + margin <= Player.y p + Player.h p)%Q.

Definition clearly_misses (p : Player.t) (coin : Coin.t) : Prop :=
  (Coin.x coin + Coin.r coin + margin <= Player.x p \/
   Player.x p + Player.w p + margin <= Coin.x coin - Coin.r coin \/
   Coin.y coin + Coin.r coin + margin <= Player.y p \/
   Player.y p + Player.h p + margin <= Coin.y coin - Coin.r coin)%Q.

(** The seven codes that [update] reads from [keys]. *)
Definition watched : list string :=
  ["ArrowLeft"; "KeyA"; "ArrowRight"; "KeyD"; "ArrowUp"; "KeyW"; "Space"]%string.

(** ** The camera of [drawGame]

    Lines 305-306.  [canvas.width] comes from the HTML page, like
    [canvas.height]. *)
Definition cameraX (canvas_width canvas_height : Q) (p : Player.t) : Q :=
  let cameraX := (Player.x p + Player.w p / 2 - canvas_width / 2)%Q in
  Qmax 0 (Qmin cameraX (World.width (world canvas_height) - canvas_width)).

(** Line 218: where [Player.draw] puts the left edge of the body on the
    canvas ([Platform.draw] and [Coin.draw] shift their [x] the same way). *)
Definition drawX (cameraX : Q) (p : Player.t) : Q := (Player.x p - cameraX)%Q.

(** ** Bounds used in the statements about whole games *)

(** The horizontal speed stays within [speed], and the player never rises
    faster than a fresh jump. *)
Definition within_speed (g : Game.t) : Prop :=
  (-4 <= Player.vx (Game.player g) /\ Player.vx (Game.player g) <= 4 /\
   -11.5 <= Player.vy (Game.player g))%Q.

(** The player's bottom edge, now and after one more [vy], is not below the
    top of the ground platform. *)
Definition above_ground (canvas_height : Q) (g : Game.t) : Prop :=
  (Player.y (Game.player g) + Player.h (Game.player g) <= canvas_height - 50 /\
   Player.y (Game.player g) + Player.h (Game.player g) + Player.vy (Game.player g)
     <= canvas_height - 50)%Q.

(** The largest [|vx|] left after [n] frames of friction, starting from
    [speed]. *)
Fixpoint decay (n : nat) : Q :=
  match n with
  | O => 4%Q
  | S k => (0.8 * decay k)%Q
  end.

(** Successive player updates, one key state per frame. *)
Definition updates (canvas_height : Q) (frames : list Keys.t) (p : Player.t)
  : Player.t :=
  fold_left (fun p keys => Player.update canvas_height keys p) frames p.

(** How far apart two platform tops must be for a landing on one not to be
    mistaken for a landing on the other. *)
Definition apart (plat plat' : Platform.t) : Prop :=
  plat' = plat \/
  (Platform.y plat' < Platform.y plat - 5)%Q \/
  (Platform.y plat + 1 < Platform.y plat')%Q.

(** * Properties *)

Local Open Scope Q_scope.

(** Whole frames are unfolded by hand, phase by phase. *)
Arguments Player.update : simpl never.
Arguments Player.before_loop : simpl never.
Arguments Player.at_platform : simpl never.
Arguments platforms : simpl never.
Arguments updateGame : simpl never.

(** ** Comparisons *)

Lemma Qltb_true a b : Qltb a b = true <-> a < b.
Proof.
  unfold Qltb. rewrite Qlt_alt. destruct (a ?= b); intuition discriminate.
Qed.

Lemma Qltb_false a b : Qltb a b = false <-> b <= a.
Proof.
  split; intros E.
  - apply Qnot_lt_le. intros L. apply Qltb_true in L. congruence.
  - destruct (Qltb a b) eqn:L; [|reflexivity].
    apply Qltb_true in L. exfalso. exact (Qle_not_lt _ _ E L).
Qed.

Lemma Qleb_true a b : Qleb a b = true <-> a <= b.
Proof.
  unfold Qleb. rewrite Qle_alt. destruct (a ?= b); intuition discriminate.
Qed.

Lemma Qleb_false a b : Qleb a b = false <-> b < a.
Proof.
  split; intros E.
  - apply Qnot_le_lt. intros L. apply Qleb_true in L. congruence.
  - destruct (Qleb a b) eqn:L; [|reflexivity].
    apply Qleb_true in L. exfalso. exact (Qlt_not_le _ _ E L).
Qed.

(** Case analysis on every comparison of the goal, as facts for [lra]. *)
Ltac cmp_cases :=
  unfold Qgtb, Qgeb in *;
  repeat match goal with
    | |- context [Qltb ?a ?b] =>
        let E := fresh "E" in
        destruct (Qltb a b) eqn:E;
        [apply Qltb_true in E | apply Qltb_false in E]
    | |- context [Qleb ?a ?b] =>
        let E := fresh "E" in
        destruct (Qleb a b) eqn:E;
        [apply Qleb_true in E | apply Qleb_false in E]
    end.

(** ** The landing loop *)

Section Landing.
Import Player.

Lemma same_frame_refl p : same_frame p p.
Proof. repeat split. Qed.

Lemma same_frame_trans p q r : same_frame p q -> same_frame q r -> same_frame p r.
Proof. unfold same_frame. intuition congruence. Qed.

Lemma collide_same_frame p plat : same_frame p (collide p plat).
Proof. unfold collide. destruct (lands_on p plat); repeat split. Qed.

Lemma fold_collide_same_frame plats p : same_frame p (fold_left collide plats p).
Proof.
  revert p. induction plats as [|a l IH]; intros p; simpl.
  - apply same_frame_refl.
  - eapply same_frame_trans; [apply collide_same_frame | apply IH].
Qed.

(** The loop either leaves the player alone, or its result is the snap onto
    the last platform that passed the test, taken from the state the loop
    had when it reached that platform. *)
Lemma fold_collide_last plats p :
  (Forall (fun plat => lands_on p plat = false) plats /\
   fold_left collide plats p = p) \/
  (exists n plat,
      plats !! n = Some plat /\
      lands_on (fold_left collide (take n plats) p) plat = true /\
      fold_left collide plats p = snap plat (fold_left collide (take n plats) p)).
Proof.
  induction plats as [|a l IH] using rev_ind.
  - left. split; [constructor | reflexivity].
  - rewrite fold_left_app. simpl.
    destruct (lands_on (fold_left collide l p) a) eqn:E.
    + right. exists (length l), a. split; [|split].
      * rewrite lookup_app_r by lia. now rewrite Nat.sub_diag.
      * rewrite take_app_length. exact E.
      * rewrite take_app_length. unfold collide at 1. now rewrite E.
    + assert (C : collide (fold_left collide l p) a = fold_left collide l p)
        by (unfold collide at 1; now rewrite E).
      rewrite C.
      destruct IH as [[F R] | (n & plat & L & T & R)].
      * left. split; [|exact R].
        apply Forall_app. split; [exact F|]. constructor; [|constructor].
        now rewrite R in E.
      * right. exists n, plat.
        assert (n < length l)%nat by (eapply lookup_lt_Some; eauto).
        split; [|split].
        -- rewrite lookup_app_l by lia. exact L.
        -- rewrite take_app_le by lia. exact T.
        -- rewrite take_app_le by lia. exact R.
Qed.
End Landing.

(** ** The phases of [Player.update] *)

Section Phases.
Import Player.
Variable canvas_height : Q.
Variable keys : Keys.t.

Lemma as_built_dims p q : dims q = dims p -> as_built p -> as_built q.
Proof.
  unfold dims, as_built. intros E (Hw & Hh & Hs & Hj).
  injection E as -> -> -> ->. auto.
Qed.

Lemma steer_dims p : dims (steer keys p) = dims p.
Proof.
  unfold steer. destruct (Keys.left keys), (Keys.right keys); simpl;
    try reflexivity; destruct (Qltb _ _); reflexivity.
Qed.

Lemma move_x_dims p : dims (move_x p) = dims p.
Proof. reflexivity. Qed.

Lemma clamp_x_dims p : dims (clamp_x canvas_height p) = dims p.
Proof.
  unfold clamp_x. destruct (Qltb _ _); [reflexivity|].
  destruct (Qgtb _ _); reflexivity.
Qed.

Lemma jump_dims p : dims (jump keys p) = dims p.
Proof. unfold jump. destruct (_ && _); reflexivity. Qed.

Lemma fall_dims p : dims (fall canvas_height p) = dims p.
Proof. reflexivity. Qed.

Lemma fail_check_dims p : dims (fail_check canvas_height p) = dims p.
Proof. unfold fail_check. destruct (Qgtb _ _); reflexivity. Qed.

Lemma fold_collide_dims plats p : dims (fold_left collide plats p) = dims p.
Proof.
  destruct (fold_collide_same_frame plats p) as (Hw & Hh & _ & _ & Hs & Hj).
  unfold dims. now rewrite Hw, Hh, Hs, Hj.
Qed.

Lemma before_loop_dims p : dims (before_loop canvas_height keys p) = dims p.
Proof.
  unfold before_loop.
  change (dims (set_onGround false ?q)) with (dims q).
  now rewrite fail_check_dims, fall_dims, jump_dims, clamp_x_dims,
    move_x_dims, steer_dims.
Qed.

(** [update] is the loop run from [before_loop] over all nine platforms. *)
Lemma update_unfold p :
  update canvas_height keys p
  = fold_left collide (platforms canvas_height) (before_loop canvas_height keys p).
Proof. reflexivity. Qed.

Lemma update_at_platform p :
  update canvas_height keys p
  = at_platform canvas_height keys (length (platforms canvas_height)) p.
Proof. unfold at_platform. now rewrite take_ge by lia. Qed.

Lemma update_dims p : dims (update canvas_height keys p) = dims p.
Proof. rewrite update_unfold, fold_collide_dims. apply before_loop_dims. Qed.

Lemma update_as_built p : as_built p -> as_built (update canvas_height keys p).
Proof. apply as_built_dims, update_dims. Qed.

(** The horizontal phases leave the vertical state alone. *)
Lemma horizontal_keeps_vertical p :
  let c := clamp_x canvas_height (move_x (steer keys p)) in
  y c = y p /\ vy c = vy p /\ onGround c = onGround p.
Proof.
  unfold clamp_x, move_x, steer.
  destruct (Keys.left keys), (Keys.right keys); simpl;
    repeat (destruct (Qltb _ _) || destruct (Qgtb _ _); simpl);
    repeat split.
Qed.

(** After the clamp the player is inside the world, and a clamp that fires
    stops the horizontal motion. *)
Lemma clamp_x_range p :
  0 <= World.width (world canvas_height) - w p ->
  let q := clamp_x canvas_height p in
  0 <= x q /\ x q <= World.width (world canvas_height) - w q.
Proof.
  intros Hw. unfold clamp_x. cmp_cases; simpl in *; split; lra.
Qed.

Lemma clamp_x_fires p :
  x p < 0 \/ World.width (world canvas_height) - w p < x p ->
  vx (clamp_x canvas_height p) = 0.
Proof.
  intros F. unfold clamp_x. cmp_cases; simpl in *; try reflexivity.
  exfalso. lra.
Qed.

(** Horizontal position and speed after the clamp change only by a
    respawn. *)
Lemma after_clamp_x p :
  let q := fail_check canvas_height (fall canvas_height (jump keys p)) in
  (x q = x p /\ vx q = vx p) \/ (x q = 50 /\ vx q = 0).
Proof.
  unfold fail_check, fall, jump.
  destruct (Keys.jump keys && onGround p); simpl;
    destruct (Qgtb _ _); simpl; auto.
Qed.

Lemma update_x p :
  let c := clamp_x canvas_height (move_x (steer keys p)) in
  let p' := update canvas_height keys p in
  (x p' = x c /\ vx p' = vx c) \/ (x p' = 50 /\ vx p' = 0).
Proof.
  intros c p'. subst p'. rewrite update_unfold.
  destruct (fold_collide_same_frame (platforms canvas_height)
              (before_loop canvas_height keys p)) as (_ & _ & Hx & Hv & _).
  rewrite Hx, Hv. unfold before_loop.
  change (x (set_onGround false ?q)) with (x q).
  change (vx (set_onGround false ?q)) with (vx q).
  apply after_clamp_x.
Qed.

Lemma update_x_range p :
  as_built p ->
  let p' := update canvas_height keys p in
  0 <= x p' /\ x p' <= World.width (world canvas_height) - w p'.
Proof.
  intros B p'.
  assert (B' : as_built p') by now apply update_as_built.
  destruct B' as (Hw' & _).
  set (u := move_x (steer keys p)).
  assert (Hu : w u = 40).
  { assert (D : dims u = dims p) by (unfold u; now rewrite move_x_dims, steer_dims).
    destruct (as_built_dims _ _ D B) as (E & _). exact E. }
  assert (R := clamp_x_range u). cbv zeta in R.
  assert (Hc : w (clamp_x canvas_height u) = 40).
  { assert (D := clamp_x_dims u). unfold dims in D. injection D as -> _ _ _.
    exact Hu. }
  rewrite Hu, Hc in R. simpl in R.
  destruct (update_x p) as [[Ex _] | [Ex _]]; fold p' u in Ex;
    rewrite Ex, Hw'; simpl; [apply R; lra | lra].
Qed.
End Phases.

(** ** Coin pickup *)

(** The loop only reads indices inside the array. *)
Lemma collect_in_range (coins : list Coin.t) i :
  (S i <= length coins)%nat ->
  is_Some (coins !! i) /\ (i <= length (delete i coins))%nat.
Proof.
  intros Hn. assert (L : (i < length coins)%nat) by lia.
  apply lookup_lt_is_Some in L. split; [exact L|].
  rewrite length_delete by exact L. lia.
Qed.

(** What one scan does to the coin list and to the score: coins only leave,
    and every coin that leaves adds 10. *)
Lemma collect_sound p n coins score :
  (n <= length coins)%nat ->
  let r := collect p n coins score in
  sublist (fst r) coins /\
  (snd r = score + 10 * (Z.of_nat (length coins) - Z.of_nat (length (fst r))))%Z.
Proof.
  revert coins score. induction n as [|i IH]; intros coins score Hn; simpl.
  - split; [reflexivity | lia].
  - destruct (lookup_lt_is_Some_2 coins i ltac:(lia)) as [coin Hc].
    rewrite Hc. destruct (touches p coin).
    + assert (Hd : length (delete i coins) = (length coins - 1)%nat).
      { rewrite length_delete; [reflexivity | eauto]. }
      destruct (IH (delete i coins) (score + 10)%Z ltac:(lia)) as [S1 S2].
      split.
      * etrans; [exact S1 | apply sublist_delete].
      * rewrite S2, Hd. lia.
    + apply IH. lia.
Qed.

(** The scan keeps exactly the coins the player does not touch, in order:
    going backwards, [splice] neither skips a coin nor visits one twice. *)
Lemma collect_filter p n coins score :
  (n <= length coins)%nat ->
  fst (collect p n coins score)
  = filter (fun c => touches p c = false) (take n coins) ++ drop n coins.
Proof.
  revert coins score. induction n as [|i IH]; intros coins score Hn.
  - simpl. now rewrite drop_0.
  - destruct (lookup_lt_is_Some_2 coins i ltac:(lia)) as [coin Hc].
    simpl. rewrite Hc.
    rewrite (take_S_r _ _ _ Hc), filter_app.
    assert (Lt : i = length (take i coins)) by (rewrite length_take; lia).
    destruct (touches p coin) eqn:T.
    + rewrite IH by (rewrite length_delete; eauto; lia).
      rewrite delete_take_drop.
      rewrite (take_app_length' _ _ _ Lt), (drop_app_length' _ _ _ Lt).
      rewrite filter_cons_False, filter_nil, app_nil_r by congruence.
      reflexivity.
    + rewrite IH by lia.
      rewrite filter_cons_True, filter_nil by assumption.
      rewrite (drop_S _ _ _ Hc), <- app_assoc. reflexivity.
Qed.

(** One scan over the whole array, as [updateGame] runs it. *)
Lemma collect_all p coins score :
  fst (collect p (length coins) coins score)
  = filter (fun c => touches p c = false) coins.
Proof.
  rewrite collect_filter by lia.
  now rewrite firstn_all, drop_all, app_nil_r.
Qed.

(** ** The simulation step *)

(** Read the fields of a freshly built game state, and nothing more. *)
Ltac game_fields :=
  cbv zeta; cbn [Game.player Game.coins Game.score Game.win fst snd].

Section Step.
Variable canvas_height : Q.

Lemma updateGame_won keys g :
  Game.win g = true -> updateGame canvas_height keys g = g.
Proof. intros E. unfold updateGame. now rewrite E. Qed.

Lemma updateGame_playing keys g :
  Game.win g = false ->
  let p := Player.update canvas_height keys (Game.player g) in
  let r := collect p (length (Game.coins g)) (Game.coins g) (Game.score g) in
  updateGame canvas_height keys g
  = Game.mk p (fst r) (snd r) (at_goal canvas_height p).
Proof.
  intros E. unfold updateGame. rewrite E. cbn [negb].
  destruct (collect _ _ _ _) as [cs sc]. cbn [fst snd].
  now destruct (at_goal _ _).
Qed.

Lemma run_nil g : run canvas_height [] g = g.
Proof. reflexivity. Qed.

Lemma run_cons keys frames g :
  run canvas_height (keys :: frames) g
  = run canvas_height frames (updateGame canvas_height keys g).
Proof. reflexivity. Qed.

Lemma run_app frames more g :
  run canvas_height (frames ++ more) g
  = run canvas_height more (run canvas_height frames g).
Proof. apply fold_left_app. Qed.

Lemma run_won frames g :
  Game.win g = true -> run canvas_height frames g = g.
Proof.
  intros E. induction frames as [|keys frames IH]; [reflexivity|].
  now rewrite run_cons, updateGame_won.
Qed.

Lemma reachable_run frames g :
  reachable canvas_height g -> reachable canvas_height (run canvas_height frames g).
Proof.
  revert g. induction frames as [|keys frames IH]; intros g R; [exact R|].
  rewrite run_cons. apply IH. now constructor.
Qed.

Lemma reachable_is_run g :
  reachable canvas_height g <->
  exists frames, g = run canvas_height frames (initial canvas_height).
Proof.
  split.
  - induction 1 as [|keys g R (frames & ->)].
    + now exists [].
    + exists (frames ++ [keys]). now rewrite run_app.
  - intros (frames & ->). apply reachable_run. constructor.
Qed.

(** Coins and score of one step, whatever the state. *)
Lemma updateGame_coins keys g :
  let g' := updateGame canvas_height keys g in
  sublist (Game.coins g') (Game.coins g) /\
  (Game.score g' = Game.score g
     + 10 * (Z.of_nat (length (Game.coins g)) - Z.of_nat (length (Game.coins g'))))%Z.
Proof.
  destruct (Game.win g) eqn:E; cbv zeta.
  - rewrite updateGame_won by exact E. split; [reflexivity | lia].
  - rewrite updateGame_playing by exact E. game_fields.
    now apply collect_sound.
Qed.

Lemma run_coins frames g :
  let g' := run canvas_height frames g in
  sublist (Game.coins g') (Game.coins g) /\
  (Game.score g' = Game.score g
     + 10 * (Z.of_nat (length (Game.coins g)) - Z.of_nat (length (Game.coins g'))))%Z.
Proof.
  revert g. induction frames as [|keys frames IH]; intros g; cbv zeta.
  - rewrite run_nil. split; [reflexivity | lia].
  - rewrite run_cons.
    destruct (IH (updateGame canvas_height keys g)) as [S1 E1].
    destruct (updateGame_coins keys g) as [S2 E2].
    split; [etrans; eassumption | lia].
Qed.

Lemma sound_initial : sound canvas_height (initial canvas_height).
Proof.
  repeat split; simpl; try lra; try reflexivity.
Qed.

Lemma sound_step keys g :
  sound canvas_height g -> sound canvas_height (updateGame canvas_height keys g).
Proof.
  intros (B & X & S & A).
  destruct (updateGame_coins keys g) as [S' A']. cbv zeta in *.
  split; [|split; [|split]].
  - destruct (Game.win g) eqn:E.
    + now rewrite updateGame_won.
    + rewrite updateGame_playing by exact E. game_fields.
      now apply update_as_built.
  - destruct (Game.win g) eqn:E.
    + now rewrite updateGame_won.
    + rewrite updateGame_playing by exact E. game_fields.
      now apply update_x_range.
  - etrans; eassumption.
  - lia.
Qed.

Lemma reachable_sound g : reachable canvas_height g -> sound canvas_height g.
Proof.
  induction 1; [apply sound_initial | now apply sound_step].
Qed.
End Step.

(** ** The landing test, and frames in which nothing can land *)

Section LandingTest.
Import Player.

Lemma lands_on_iff q plat :
  lands_on q plat = true <->
  0 <= vy q /\
  Platform.x plat < x q + w q /\
  x q < Platform.x plat + Platform.w plat /\
  y q + h q <= Platform.y plat + 5 /\
  Platform.y plat <= y q + h q + vy q.
Proof.
  unfold lands_on, Qgtb, Qgeb.
  rewrite !andb_true_iff, !Qltb_true, !Qleb_true. tauto.
Qed.

Lemma at_platform_S canvas_height keys n plat p :
  platforms canvas_height !! n = Some plat ->
  at_platform canvas_height keys (S n) p
  = collide (at_platform canvas_height keys n p) plat.
Proof.
  intros L. unfold at_platform.
  now rewrite (take_S_r _ _ _ L), fold_left_app.
Qed.

(** While the player moves upward no platform passes the test. *)
Lemma fold_collide_rising plats q :
  vy q < 0 -> fold_left collide plats q = q.
Proof.
  intros V. induction plats as [|plat plats IH]; [reflexivity|].
  simpl. assert (C : collide q plat = q); [|now rewrite C].
  unfold collide. destruct (lands_on q plat) eqn:E; [|reflexivity].
  apply lands_on_iff in E. lra.
Qed.
End LandingTest.

(** ** The play-through collects every coin *)

Lemma playthrough_end : run 450 playthrough (initial 450) = all_collected.
Proof. vm_compute. reflexivity. Qed.

Lemma level_coins_NoDup canvas_height : NoDup (level_coins canvas_height).
Proof.
  unfold level_coins, Coin.new.
  repeat (apply NoDup_cons; split;
          [ intros In;
            repeat (apply elem_of_cons in In as [In|In]; [discriminate In|]);
            now apply elem_of_nil in In | ]).
  apply NoDup_nil. trivial.
Qed.

Lemma at_the_goal_reached :
  run 450 (playthrough ++ replicate 56 go_right) (initial 450) = at_the_goal.
Proof. rewrite run_app, playthrough_end. vm_compute. reflexivity. Qed.

(** * The claims *)

(** C1.  In a frame that starts with [win] false, the step sets [win] exactly
    when, after the player update of that frame, the player's right edge
    [x + w] is beyond [world.width - 50]; and once [win] is true no later
    frame sets it back to false. *)
Theorem win_exactly_at_goal canvas_height keys g :
  let p' := Player.update canvas_height keys (Game.player g) in
  (Game.win g = false ->
   Game.player (updateGame canvas_height keys g) = p' /\
   (Game.win (updateGame canvas_height keys g) = true <->
    World.width (world canvas_height) - 50 < Player.x p' + Player.w p')) /\
  (Game.win g = true ->
   forall frames, Game.win (run canvas_height frames g) = true).
Proof.
  intros p'. split.
  - intros E. rewrite updateGame_playing by exact E. game_fields.
    split; [reflexivity|]. unfold at_goal, Qgtb. apply Qltb_true.
  - intros E frames. now rewrite run_won.
Qed.

Lemma win_exactly_at_goal_witness :
  (Game.win (updateGame 450 go_right all_collected) = true <->
   World.width (world 450) - 50
   < Player.x (Player.update 450 go_right (Game.player all_collected))
     + Player.w (Player.update 450 go_right (Game.player all_collected))) /\
  (forall frames, Game.win (run 450 frames at_the_goal) = true).
Proof.
  split.
  - destruct (win_exactly_at_goal 450 go_right all_collected) as [P _].
    exact (proj2 (P eq_refl)).
  - destruct (win_exactly_at_goal 450 idle at_the_goal) as [_ W].
    exact (W eq_refl).
Defined.

(** C6.  In a frame that starts with [win] true the step changes nothing:
    the player (position, velocities, [onGround]), the coins, the score and
    [win] are the same before and after. *)
Theorem frozen_after_win canvas_height keys g :
  Game.win g = true -> updateGame canvas_height keys g = g.
Proof. apply updateGame_won. Qed.

Lemma frozen_after_win_witness :
  Game.win at_the_goal = true /\ updateGame 450 go_right_jump at_the_goal = at_the_goal.
Proof.
  split; [reflexivity|]. apply (frozen_after_win 450 go_right_jump at_the_goal).
  reflexivity.
Defined.

(** C3.  In every state of a game and for every key state, after the step
    the player's [x] lies in [[0, world.width - w]]; and when the clamp fires
    in that frame (the [x] reached by the horizontal move lies outside that
    interval) the frame ends with [vx] equal to 0. *)
Theorem x_stays_in_world canvas_height keys g :
  reachable canvas_height g ->
  let p' := Game.player (updateGame canvas_height keys g) in
  let u := Player.move_x (Player.steer keys (Game.player g)) in
  (0 <= Player.x p' /\
   Player.x p' <= World.width (world canvas_height) - Player.w p') /\
  (Game.win g = false ->
   Player.x u < 0 \/ World.width (world canvas_height) - Player.w u < Player.x u ->
   Player.vx p' == 0).
Proof.
  intros R p' u. split.
  - apply (sound_step canvas_height keys g (reachable_sound _ _ R)).
  - intros E F. subst p'. rewrite updateGame_playing by exact E. game_fields.
    destruct (update_x canvas_height keys (Game.player g)) as [[_ Ev] | [_ Ev]];
      rewrite Ev; [|reflexivity].
    fold u. now rewrite (clamp_x_fires canvas_height u F).
Qed.

Lemma x_stays_in_world_witness :
  let g := run 450 (replicate 12 go_left) (initial 450) in
  let p' := Game.player (updateGame 450 go_left g) in
  let u := Player.move_x (Player.steer go_left (Game.player g)) in
  reachable 450 g /\
  (0 <= Player.x p' /\ Player.x p' <= World.width (world 450) - Player.w p') /\
  (Game.win g = false ->
   Player.x u < 0 \/ World.width (world 450) - Player.w u < Player.x u ->
   Player.vx p' == 0).
Proof.
  intros g p' u.
  assert (R : reachable 450 g) by (apply reachable_run; constructor).
  split; [exact R|].
  exact (x_stays_in_world 450 go_left g R).
Defined.

(** C5.  Along every run the score never decreases; a coin that has left the
    coin list never returns to it, the list has no duplicates and the score
    grows by exactly 10 for each coin that leaves, so no coin is counted
    twice; and when all eight coins are gone the score is 80. *)
Theorem score_counts_each_coin_once canvas_height frames more :
  let g := run canvas_height frames (initial canvas_height) in
  let g' := run canvas_height more g in
  (Game.score g <= Game.score g')%Z /\
  (forall coin, coin ∉ Game.coins g -> coin ∉ Game.coins g') /\
  NoDup (Game.coins g) /\
  (Game.score g'
   = Game.score g
     + 10 * (Z.of_nat (length (Game.coins g)) - Z.of_nat (length (Game.coins g'))))%Z /\
  (Game.score g = 10 * (8 - Z.of_nat (length (Game.coins g))))%Z /\
  (Game.coins g = [] -> Game.score g = 80%Z).
Proof.
  intros g g'.
  assert (R : reachable canvas_height g) by (apply reachable_run; constructor).
  destruct (reachable_sound _ _ R) as (_ & _ & S & A).
  destruct (run_coins canvas_height more g) as [S' A']. fold g' in S', A'.
  assert (L := sublist_length _ _ S').
  split; [lia|]. split; [|split; [|split; [|split]]].
  - intros coin N I. apply N. eapply elem_of_sublist; eauto.
  - eapply sublist_NoDup; [apply level_coins_NoDup | exact S].
  - exact A'.
  - lia.
  - intros E. rewrite E in A. simpl in A. lia.
Qed.

Lemma score_counts_each_coin_once_witness :
  Game.coins (run 450 playthrough (initial 450)) = [] /\
  Game.score (run 450 playthrough (initial 450)) = 80%Z.
Proof.
  assert (E : Game.coins (run 450 playthrough (initial 450)) = [])
    by now rewrite playthrough_end.
  split; [exact E|].
  destruct (score_counts_each_coin_once 450 playthrough [])
    as (_ & _ & _ & _ & _ & S).
  exact (S E).
Defined.

(** C9 as stated fails when both directions are held: no friction is
    applied then.  With left and right both down and the player at rest,
    the horizontal control leaves [vx] at [speed], not at the value friction
    gives. *)
Lemma friction_when_both_held_counterexample :
  Keys.left both_ways = true /\ Keys.right both_ways = true /\
  ~ Player.vx (Player.steer both_ways Player.new) == friction (Player.vx Player.new).
Proof.
  split; [reflexivity|]. split; [reflexivity|].
  vm_compute. discriminate.
Qed.

Lemma within_rounding_slack (a b c : Q) :
  a == b -> Qabs (a - b) <= Qabs c * rounding_slack.
Proof.
  intros E.
  assert (Z : a - b == 0) by lra.
  rewrite Z. change (Qabs 0) with 0.
  assert (N := Qabs_nonneg c).
  assert (S : 0 < rounding_slack) by reflexivity.
  apply Qmult_le_0_compat; lra.
Qed.

(** C9, amended.  In the horizontal-control step friction is applied exactly
    when neither direction is held: [vx] is set to 0 when 0.8 times it is
    below 0.05 in absolute value, and otherwise becomes 0.8 times itself (the
    stored product is within [rounding_slack] times [|vx|] of the exact one,
    which covers the rounding of the double-precision product).  When right
    is held [vx] becomes [speed], also when left is held too (the later test
    wins and no friction is applied); when only left is held [vx] becomes
    [-speed]. *)
Theorem steer_cases keys p :
  let p' := Player.steer keys p in
  (Keys.left keys = false -> Keys.right keys = false ->
   (Qabs (Player.vx p * 0.8) < 0.05 -> Player.vx p' == 0) /\
   (0.05 <= Qabs (Player.vx p * 0.8) ->
    Qabs (Player.vx p' - Player.vx p * 0.8)
    <= Qabs (Player.vx p) * rounding_slack)) /\
  (Keys.right keys = true -> Player.vx p' == Player.speed p) /\
  (Keys.left keys = true -> Keys.right keys = false ->
   Player.vx p' == - Player.speed p).
Proof.
  unfold Player.steer.
  destruct (Keys.left keys), (Keys.right keys);
    cbv beta iota zeta delta [negb];
    (split; [|split]); intros; try discriminate; try apply Qeq_refl.
  cmp_cases; cbn [Player.vx Player.set_vx] in *; split; intros.
  - reflexivity.
  - exfalso. lra.
  - exfalso. lra.
  - apply within_rounding_slack. reflexivity.
Qed.

Lemma steer_cases_witness :
  (Qabs (Player.vx Player.new * 0.8) < 0.05 /\
   Player.vx (Player.steer idle Player.new) == 0) /\
  (0.05 <= Qabs (Player.vx (Game.player all_collected) * 0.8) /\
   Qabs (Player.vx (Player.steer idle (Game.player all_collected))
         - Player.vx (Game.player all_collected) * 0.8)
   <= Qabs (Player.vx (Game.player all_collected)) * rounding_slack) /\
  (Player.vx (Player.steer both_ways Player.new) == Player.speed Player.new) /\
  (Player.vx (Player.steer go_left Player.new) == - Player.speed Player.new).
Proof.
  assert (S : Qabs (Player.vx Player.new * 0.8) < 0.05) by reflexivity.
  assert (B : 0.05 <= Qabs (Player.vx (Game.player all_collected) * 0.8))
    by (vm_compute; discriminate).
  split; [|split; [|split]].
  - split; [exact S|].
    destruct (steer_cases idle Player.new) as [N _].
    exact (proj1 (N eq_refl eq_refl) S).
  - split; [exact B|].
    destruct (steer_cases idle (Game.player all_collected)) as [N _].
    exact (proj2 (N eq_refl eq_refl) B).
  - destruct (steer_cases both_ways Player.new) as (_ & R & _).
    exact (R eq_refl).
  - destruct (steer_cases go_left Player.new) as (_ & _ & L).
    exact (L eq_refl eq_refl).
Defined.

(** C10.  At the end of every player update, [onGround] true means that [vy]
    is 0 and that the player's bottom edge [y + h] is the top [y] of one of
    the platforms; and when no platform passed the landing test at its turn
    in the loop, [onGround] is false. *)
Theorem grounded_rests_on_platform canvas_height keys p :
  let p' := Player.update canvas_height keys p in
  (Player.onGround p' = true ->
   Player.vy p' == 0 /\
   exists plat, plat ∈ platforms canvas_height /\
                Player.y p' + Player.h p' == Platform.y plat) /\
  ((forall n plat, platforms canvas_height !! n = Some plat ->
                   Player.lands_on (Player.at_platform canvas_height keys n p) plat = false) ->
   Player.onGround p' = false).
Proof.
  intros p'. subst p'. rewrite update_unfold.
  destruct (fold_collide_last (platforms canvas_height)
              (Player.before_loop canvas_height keys p))
    as [[_ R] | (n & plat & L & T & R)]; rewrite R.
  - split; [discriminate | reflexivity].
  - split.
    + intros _. split; [reflexivity|].
      exists plat. split; [eapply list_elem_of_lookup_2; exact L|].
      unfold Player.snap. simpl. lra.
    + intros N. specialize (N n plat L). unfold Player.at_platform in N.
      congruence.
Qed.

Lemma grounded_rests_on_platform_witness :
  let p := Game.player all_collected in
  let p' := Player.update 450 idle p in
  Player.onGround p' = true /\
  Player.vy p' == 0 /\
  exists plat, plat ∈ platforms 450 /\ Player.y p' + Player.h p' == Platform.y plat.
Proof.
  intros p p'.
  assert (G : Player.onGround p' = true) by (vm_compute; reflexivity).
  split; [exact G|].
  destruct (grounded_rests_on_platform 450 idle p) as [S _].
  exact (S G).
Defined.

(** C4 as stated fails.  Frame 36 of the fall from the spawn point, canvas
    450 high and no key held: before the move the bottom edge is at 375,
    after it at 393, with [vy] = 18, and the ground's top is at 400.  The
    loop resolves the collision with the ground (the player ends the frame
    snapped to y = 340 with [onGround] true) although the bottom edge after
    applying [vy] has not reached the platform top. *)
Lemma landing_test_counterexample :
  let p := Game.player (run 450 (replicate 35 idle) (initial 450)) in
  let before :=
    Player.jump idle (Player.clamp_x 450 (Player.move_x (Player.steer idle p))) in
  let after := Player.fall 450 before in
  exists ground,
    platforms 450 !! 0%nat = Some ground /\
    Player.lands_on (Player.at_platform 450 idle 0 p) ground = true /\
    Player.at_platform 450 idle 1 p = Player.snap ground (Player.at_platform 450 idle 0 p) /\
    Player.onGround (Player.update 450 idle p) = true /\
    Player.y (Player.update 450 idle p) == 340 /\
    Player.y after + Player.h after == 393 /\
    ~ claimed_swept_test before after ground.
Proof.
  intros p before after. eexists. split; [reflexivity|].
  split; [vm_compute; reflexivity|].
  split; [vm_compute; reflexivity|].
  split; [vm_compute; reflexivity|].
  split; [vm_compute; reflexivity|].
  split; [vm_compute; reflexivity|].
  intros (_ & _ & _ & _ & C). vm_compute in C. apply C. reflexivity.
Qed.

(** C4, amended.  When the loop reaches a platform, the collision is
    resolved exactly when, on the player as the loop has it at that moment:
    [vy >= 0], the horizontal extents overlap, the bottom edge [y + h] is at
    most 5 below the platform top, and the bottom edge moved by [vy] once
    more reaches the platform top.  That [y] already contains the frame's
    [vy] (unless the frame respawned the player).  On a match the bottom is
    put on the platform top, [vy] is 0 and [onGround] is true; otherwise the
    player is left as it is. *)
Theorem landing_test canvas_height keys p n plat :
  platforms canvas_height !! n = Some plat ->
  let q := Player.at_platform canvas_height keys n p in
  let q' := Player.at_platform canvas_height keys (S n) p in
  let moved :=
    Player.fall canvas_height
      (Player.jump keys
         (Player.clamp_x canvas_height (Player.move_x (Player.steer keys p)))) in
  (Player.lands_on q plat = true <->
   0 <= Player.vy q /\
   Platform.x plat < Player.x q + Player.w q /\
   Player.x q < Platform.x plat + Platform.w plat /\
   Player.y q + Player.h q <= Platform.y plat + 5 /\
   Platform.y plat <= Player.y q + Player.h q + Player.vy q) /\
  (Player.lands_on q plat = true ->
   Player.y q' + Player.h q' == Platform.y plat /\
   Player.vy q' == 0 /\ Player.onGround q' = true) /\
  (Player.lands_on q plat = false -> q' = q) /\
  (Player.y moved == Player.y p + Player.vy moved /\
   (Player.y moved <= canvas_height + 200 ->
    Player.y (Player.at_platform canvas_height keys 0 p) = Player.y moved /\
    Player.vy (Player.at_platform canvas_height keys 0 p) = Player.vy moved)) /\
  Player.update canvas_height keys p
  = Player.at_platform canvas_height keys (length (platforms canvas_height)) p.
Proof.
  intros L q q' moved. subst q'. rewrite (at_platform_S _ _ _ _ _ L). fold q.
  split; [apply lands_on_iff|].
  split; [|split; [|split]].
  - intros T. unfold Player.collide. rewrite T. unfold Player.snap. simpl.
    repeat split; try reflexivity. lra.
  - intros T. unfold Player.collide. now rewrite T.
  - split.
    + destruct (horizontal_keeps_vertical canvas_height keys p) as (Ey & _).
      unfold moved, Player.fall, Player.jump.
      destruct (Keys.jump keys && _); simpl; rewrite Ey; reflexivity.
    + intros N. unfold Player.at_platform, Player.before_loop. simpl.
      fold moved. unfold Player.fail_check.
      assert (E : (Player.y moved >? canvas_height + 200)%js = false)
        by (unfold Qgtb; now apply Qltb_false).
      rewrite E. split; reflexivity.
  - apply update_at_platform.
Qed.

Lemma landing_test_witness :
  let p := Game.player (run 450 (replicate 35 idle) (initial 450)) in
  let ground := Platform.new 0 (450 - 50) (World.width (world 450)) 50 in
  let q := Player.at_platform 450 idle 0 p in
  let q' := Player.at_platform 450 idle 1 p in
  platforms 450 !! 0%nat = Some ground /\
  Player.lands_on q ground = true /\
  Player.y q' + Player.h q' == Platform.y ground /\
  Player.vy q' == 0 /\ Player.onGround q' = true.
Proof.
  intros p ground q q'.
  assert (L : platforms 450 !! 0%nat = Some ground) by reflexivity.
  assert (T : Player.lands_on q ground = true) by (vm_compute; reflexivity).
  split; [exact L|]. split; [exact T|].
  destruct (landing_test 450 idle p 0 ground L) as (_ & S & _).
  exact (S T).
Defined.

(** C8 as stated fails: gravity is added in the same frame, after the jump.
    The player stands on the ground (canvas 450 high, frame 36 of the fall
    from the spawn point) and jump is pressed: the frame ends with
    [vy] = -11.5, not [-jumpStrength] = -12. *)
Lemma jump_counterexample :
  let g := run 450 (replicate 36 idle) (initial 450) in
  let p' := Game.player (updateGame 450 press_jump g) in
  Game.win g = false /\
  Player.onGround (Game.player g) = true /\
  Keys.jump press_jump = true /\
  Player.vy p' == -11.5 /\
  ~ Player.vy p' == - Player.jumpStrength p'.
Proof.
  intros g p'.
  split; [vm_compute; reflexivity|].
  split; [vm_compute; reflexivity|].
  split; [vm_compute; reflexivity|].
  split; [vm_compute; reflexivity|].
  vm_compute. discriminate.
Qed.

(** C8, amended.  In a frame that starts with [win] false, the player on the
    ground and jump held, and in which the player does not drop out below
    the canvas, the frame ends with [vy = -jumpStrength + gravity] and
    [onGround] false. *)
Theorem jump_from_ground canvas_height keys g :
  Game.win g = false ->
  Player.as_built (Game.player g) ->
  Player.onGround (Game.player g) = true ->
  Keys.jump keys = true ->
  Player.y (Game.player g) - Player.jumpStrength (Game.player g)
    + World.gravity (world canvas_height) <= canvas_height + 200 ->
  let p' := Game.player (updateGame canvas_height keys g) in
  Player.vy p' == - Player.jumpStrength p' + World.gravity (world canvas_height) /\
  Player.onGround p' = false.
Proof.
  intros W B G J Y p'. subst p'.
  rewrite updateGame_playing by exact W. game_fields.
  set (p := Game.player g) in *.
  destruct B as (_ & _ & _ & Ej).
  destruct (horizontal_keeps_vertical canvas_height keys p) as (Ey & Ev & Eg).
  set (c := Player.clamp_x canvas_height (Player.move_x (Player.steer keys p))) in *.
  assert (Dc : dims c = dims p).
  { unfold c. now rewrite clamp_x_dims, move_x_dims, steer_dims. }
  assert (Ejc : Player.jumpStrength c = 12).
  { unfold dims in Dc. injection Dc as _ _ _ ->. exact Ej. }
  assert (Q : Player.before_loop canvas_height keys p
              = Player.set_onGround false
                  (Player.fall canvas_height
                     (Player.set_onGround false
                        (Player.set_vy (- Player.jumpStrength c) c)))).
  { unfold Player.before_loop. fold c. unfold Player.jump.
    rewrite J, Eg, G. cbn [andb]. unfold Player.fail_check.
    assert (E : (Player.y (Player.fall canvas_height
                   (Player.set_onGround false
                      (Player.set_vy (- Player.jumpStrength c) c)))
                 >? canvas_height + 200)%js = false).
    { unfold Qgtb. apply Qltb_false. simpl. rewrite Ey, Ejc.
      rewrite Ej in Y. simpl in Y. lra. }
    now rewrite E. }
  rewrite update_unfold, Q, fold_collide_rising.
  - simpl. split; reflexivity.
  - simpl. rewrite Ejc. lra.
Qed.

Lemma jump_from_ground_witness :
  let g := run 450 (replicate 36 idle) (initial 450) in
  let p' := Game.player (updateGame 450 press_jump g) in
  Game.win g = false /\
  Player.as_built (Game.player g) /\
  Player.onGround (Game.player g) = true /\
  Keys.jump press_jump = true /\
  Player.y (Game.player g) - Player.jumpStrength (Game.player g)
    + World.gravity (world 450) <= 450 + 200 /\
  Player.vy p' == - Player.jumpStrength p' + World.gravity (world 450) /\
  Player.onGround p' = false.
Proof.
  intros g p'.
  assert (W : Game.win g = false) by (vm_compute; reflexivity).
  assert (B : Player.as_built (Game.player g)) by (vm_compute; auto).
  assert (G : Player.onGround (Game.player g) = true) by (vm_compute; reflexivity).
  assert (J : Keys.jump press_jump = true) by (vm_compute; reflexivity).
  assert (Y : Player.y (Game.player g) - Player.jumpStrength (Game.player g)
              + World.gravity (world 450) <= 450 + 200)
    by (vm_compute; discriminate).
  repeat (split; [assumption|]).
  exact (jump_from_ground 450 press_jump g W B G J Y).
Defined.




(** ** Collecting every coin does not win *)

Lemma win_false_prefix canvas_height frames more g :
  Game.win (run canvas_height (frames ++ more) g) = false ->
  Game.win (run canvas_height frames g) = false.
Proof.
  rewrite run_app. intros E.
  destruct (Game.win (run canvas_height frames g)) eqn:F; [|reflexivity].
  rewrite run_won in E by exact F. congruence.
Qed.

(** With no key held the player comes to rest within 60 frames, and a
    further frame changes nothing. *)
Lemma at_rest_fixed :
  let r := run 450 (replicate 60 idle) all_collected in
  updateGame 450 idle r = r /\ Game.win r = false.
Proof. vm_compute. split; reflexivity. Qed.

Lemma at_rest_forever n :
  Game.win (run 450 (replicate n idle) all_collected) = false.
Proof.
  destruct at_rest_fixed as [F W]. cbv zeta in F, W.
  destruct (Nat.le_gt_cases n 60) as [L|L].
  - apply (win_false_prefix 450 _ (replicate (60 - n) idle)).
    rewrite <- replicate_add. now replace (n + (60 - n))%nat with 60%nat by lia.
  - assert (S : forall k, run 450 (replicate k idle)
                            (run 450 (replicate 60 idle) all_collected)
                          = run 450 (replicate 60 idle) all_collected).
    { induction k as [|k IH]; [reflexivity|].
      change (replicate (S k) idle) with (idle :: replicate k idle).
      now rewrite run_cons, F. }
    replace n with (60 + (n - 60))%nat by lia.
    now rewrite replicate_add, run_app, S.
Qed.

(** C2 fails on the code.  The play-through (canvas 450 high) reaches a
    state in which all eight coins are collected and the score is 80, yet
    [win] is false, and it stays false for as long as no key is held: the
    step never looks at the coin list to decide [win]. *)
Theorem all_coins_collected_without_win :
  let g := run 450 playthrough (initial 450) in
  reachable 450 g /\
  Game.coins g = [] /\ Game.score g = 80%Z /\ Game.win g = false /\
  (forall keys, Game.win (updateGame 450 keys g)
                = at_goal 450 (Player.update 450 keys (Game.player g))) /\
  forall n, Game.win (run 450 (replicate n idle) g) = false.
Proof.
  intros g.
  assert (R : reachable 450 g) by (apply reachable_run; constructor).
  subst g. rewrite playthrough_end.
  split; [rewrite <- playthrough_end; exact R|].
  split; [reflexivity|]. split; [reflexivity|]. split; [reflexivity|].
  split.
  - intros keys. now rewrite updateGame_playing.
  - apply at_rest_forever.
Qed.

(** * Further properties of the code *)

(** ** The key listeners (lines 26-32) *)

(** X1.  For the seven codes that [update] reads: after [keydown] the code
    is held and after [keyup] it is not, whatever was stored before; neither
    listener changes another of these codes; before any event none of them
    is held; and a direction with two keys stays active when only one of its
    two keys is released. *)
Theorem listeners_set_and_clear (keys : Keys.t) (code other : string) :
  code ∈ watched -> other ∈ watched ->
  Keys.held (Keys.keydown code keys) code = true /\
  Keys.held (Keys.keyup code keys) code = false /\
  Keys.held Keys.empty code = false /\
  (code <> other ->
   Keys.held (Keys.keydown code keys) other = Keys.held keys other /\
   Keys.held (Keys.keyup code keys) other = Keys.held keys other) /\
  Keys.left (Keys.keyup "ArrowLeft" (Keys.keydown "KeyA" keys)) = true /\
  Keys.right (Keys.keyup "KeyD" (Keys.keydown "ArrowRight" keys)) = true.
Proof.
  intros _ _.
  unfold Keys.left, Keys.right, Keys.held, Keys.keydown, Keys.keyup, Keys.empty.
  repeat split.
  - now rewrite lookup_insert_eq.
  - now rewrite lookup_insert_eq.
  - now rewrite lookup_insert_ne.
  - now rewrite lookup_insert_ne.
  - rewrite (lookup_insert_ne _ "ArrowLeft" "KeyA") by discriminate.
    rewrite !lookup_insert_eq. reflexivity.
  - rewrite (lookup_insert_ne _ "KeyD" "ArrowRight") by discriminate.
    rewrite !lookup_insert_eq. reflexivity.
Qed.

Lemma listeners_set_and_clear_witness :
  ("Space" ∈ watched) /\ ("KeyW" ∈ watched) /\ "Space" <> "KeyW" /\
  Keys.held (Keys.keydown "Space" go_right) "Space" = true /\
  Keys.held (Keys.keyup "Space" go_right_jump) "Space" = false /\
  Keys.held (Keys.keydown "Space" go_right) "KeyW" = Keys.held go_right "KeyW" /\
  Keys.held (Keys.keyup "Space" go_right) "KeyW" = Keys.held go_right "KeyW".
Proof.
  assert (C : "Space" ∈ watched)
    by (unfold watched; repeat first [apply list_elem_of_here
                                     | apply list_elem_of_further]).
  assert (O : "KeyW" ∈ watched)
    by (unfold watched; repeat first [apply list_elem_of_here
                                     | apply list_elem_of_further]).
  assert (N : "Space" <> "KeyW") by discriminate.
  split; [exact C|]. split; [exact O|]. split; [exact N|].
  destruct (listeners_set_and_clear go_right "Space" "KeyW" C O)
    as (D & _ & _ & K & _).
  destruct (listeners_set_and_clear go_right_jump "Space" "KeyW" C O)
    as (_ & U & _).
  split; [exact D|]. split; [exact U|]. exact (K N).
Defined.

(** ** Coin pickup (lines 281-293) *)

Lemma filter_split_length (p : Player.t) (coins : list Coin.t) :
  (length (filter (fun c => touches p c = true) coins)
   + length (filter (fun c => touches p c = false) coins) = length coins)%nat.
Proof.
  induction coins as [|c coins IH]; [reflexivity|].
  destruct (touches p c) eqn:T.
  - rewrite filter_cons_True, (filter_cons_False (fun c => touches p c = false))
      by congruence.
    simpl. lia.
  - rewrite filter_cons_False, (filter_cons_True (fun c => touches p c = false))
      by congruence.
    simpl. lia.
Qed.

Lemma clearly_touches_touches p coin :
  clearly_touches p coin -> touches p coin = true.
Proof.
  unfold clearly_touches, touches, margin, Qgtb. intros (A & B & C & D).
  rewrite !andb_true_iff, !Qltb_true. repeat split; lra.
Qed.

Lemma clearly_misses_touches p coin :
  clearly_misses p coin -> touches p coin = false.
Proof.
  unfold clearly_misses, margin. intros M.
  destruct (touches p coin) eqn:T; [|reflexivity].
  unfold touches, Qgtb in T.
  rewrite !andb_true_iff, !Qltb_true in T. exfalso. lra.
Qed.

(** X2.  In a frame that starts with [win] false the backward scan skips
    nothing: every coin of the list that the updated player clearly overlaps
    is gone after the frame, every coin it clearly misses is still there,
    the coins that stay keep their order, and the score grows by exactly 10
    for each coin that leaves. *)
Theorem pickup_skips_nothing canvas_height keys g :
  Game.win g = false ->
  let p' := Player.update canvas_height keys (Game.player g) in
  let g' := updateGame canvas_height keys g in
  (forall coin, coin ∈ Game.coins g ->
     (clearly_touches p' coin -> coin ∉ Game.coins g') /\
     (clearly_misses p' coin -> coin ∈ Game.coins g')) /\
  sublist (Game.coins g') (Game.coins g) /\
  (Game.score g'
   = Game.score g
     + 10 * (Z.of_nat (length (Game.coins g)) - Z.of_nat (length (Game.coins g'))))%Z.
Proof.
  intros W p' g'.
  destruct (updateGame_coins canvas_height keys g) as [S A]. fold g' in S, A.
  split; [|split; assumption].
  assert (E : Game.coins g'
              = filter (fun c => touches p' c = false) (Game.coins g)).
  { subst g'. rewrite updateGame_playing by exact W. game_fields.
    apply collect_all. }
  intros coin In. rewrite E. split.
  - intros T I. apply list_elem_of_filter in I as [F _].
    apply clearly_touches_touches in T. congruence.
  - intros M. apply list_elem_of_filter. split; [|exact In].
    now apply clearly_misses_touches.
Qed.

Lemma pickup_skips_nothing_witness :
  let g := run 450 (replicate 59 go_right ++ [go_right_jump]
                    ++ replicate 2 go_right) (initial 450) in
  let p' := Player.update 450 go_right (Game.player g) in
  let g' := updateGame 450 go_right g in
  let first := Coin.new 300 (450 - 160) in
  let second := Coin.new 530 (450 - 240) in
  Game.win g = false /\
  (first ∈ Game.coins g) /\ clearly_touches p' first /\
  (first ∉ Game.coins g') /\
  (second ∈ Game.coins g) /\ clearly_misses p' second /\
  (second ∈ Game.coins g') /\
  Game.score g = 0%Z /\ Game.score g' = 10%Z.
Proof.
  intros g p' g' first second.
  assert (W : Game.win g = false) by (vm_compute; reflexivity).
  assert (G : Game.coins g = level_coins 450) by (vm_compute; reflexivity).
  assert (I1 : first ∈ Game.coins g)
    by (rewrite G; unfold level_coins; apply list_elem_of_here).
  assert (I2 : second ∈ Game.coins g)
    by (rewrite G; unfold level_coins; apply list_elem_of_further,
          list_elem_of_here).
  assert (T : clearly_touches p' first).
  { unfold clearly_touches. repeat split; vm_compute; discriminate. }
  assert (M : clearly_misses p' second).
  { unfold clearly_misses. right. left. vm_compute. discriminate. }
  destruct (pickup_skips_nothing 450 go_right g W) as (K & _ & A).
  split; [exact W|].
  split; [exact I1|]. split; [exact T|]. split; [exact (proj1 (K first I1) T)|].
  split; [exact I2|]. split; [exact M|]. split; [exact (proj2 (K second I2) M)|].
  split; vm_compute; reflexivity.
Defined.

(** ** Jumping and the one-sided landing test (lines 179-208) *)

(** X3.  The jump keys do nothing in mid-air: when [onGround] is false at the
    start of the frame, two key states that agree on left and right give the
    same player, whether or not jump is held in either. *)
Theorem no_jump_in_mid_air canvas_height keys keys' p :
  Player.onGround p = false ->
  Keys.left keys = Keys.left keys' ->
  Keys.right keys = Keys.right keys' ->
  Player.update canvas_height keys p = Player.update canvas_height keys' p.
Proof.
  intros G L R.
  assert (S : Player.steer keys p = Player.steer keys' p).
  { unfold Player.steer. now rewrite L, R. }
  destruct (horizontal_keeps_vertical canvas_height keys' p) as (_ & _ & Eg).
  rewrite !update_unfold. unfold Player.before_loop. rewrite S.
  unfold Player.jump. rewrite Eg, G, !andb_false_r. reflexivity.
Qed.

Lemma no_jump_in_mid_air_witness :
  let p := Game.player (run 450 (replicate 59 go_right ++ [go_right_jump])
                          (initial 450)) in
  Player.onGround p = false /\
  Keys.jump go_right_jump = true /\ Keys.jump go_right = false /\
  Player.update 450 go_right_jump p = Player.update 450 go_right p.
Proof.
  intros p.
  assert (G : Player.onGround p = false) by (vm_compute; reflexivity).
  split; [exact G|]. split; [reflexivity|]. split; [reflexivity|].
  apply (no_jump_in_mid_air 450 go_right_jump go_right p G); reflexivity.
Defined.

(** X14.  Platforms are one-way: in a frame in which the player, after
    gravity, still moves upward, the loop over the platforms changes nothing.
    The frame ends with the moved [y] and [vy] and with [onGround] false,
    whatever platform the player overlaps. *)
Theorem rising_player_passes_platforms canvas_height keys p :
  let q := Player.before_loop canvas_height keys p in
  Player.vy q < 0 ->
  Player.update canvas_height keys p = q /\
  Player.onGround (Player.update canvas_height keys p) = false.
Proof.
  intros q V. rewrite update_unfold. fold q.
  rewrite fold_collide_rising by exact V. split; reflexivity.
Qed.

(** X15.  Platforms are not walls: the loop over the platforms never changes
    [x] or [vx].  After a frame they are what the horizontal move and the
    clamp made them, or the spawn values 50 and 0 after a respawn. *)
Theorem platforms_never_push_sideways canvas_height keys p :
  let c := Player.clamp_x canvas_height (Player.move_x (Player.steer keys p)) in
  let q := Player.before_loop canvas_height keys p in
  let p' := Player.update canvas_height keys p in
  (Player.x p' = Player.x q /\ Player.vx p' = Player.vx q) /\
  ((Player.x p' = Player.x c /\ Player.vx p' = Player.vx c) \/
   (Player.x p' = 50 /\ Player.vx p' = 0)).
Proof.
  intros c q p'. split; [|apply update_x].
  subst p'. rewrite update_unfold. fold q.
  destruct (fold_collide_same_frame (platforms canvas_height) q)
    as (_ & _ & Hx & Hv & _).
  split; assumption.
Qed.

(** ** The win flag (lines 294-298) *)

(** X10.  In every state of a game the win flag says where the player is:
    [win] is true exactly when the player's right edge is beyond
    [world.width - 50]. *)
Theorem win_flag_is_goal_test canvas_height g :
  reachable canvas_height g ->
  (Game.win g = true <->
   World.width (world canvas_height) - 50
   < Player.x (Game.player g) + Player.w (Game.player g)).
Proof.
  induction 1 as [|keys g R IH].
  - simpl. split; [discriminate | lra].
  - destruct (Game.win g) eqn:W.
    + rewrite updateGame_won by exact W. now rewrite W.
    + rewrite updateGame_playing by exact W. game_fields.
      unfold at_goal, Qgtb. apply Qltb_true.
Qed.

Lemma win_flag_is_goal_test_witness :
  let g := run 450 (replicate 40 go_right) (initial 450) in
  reachable 450 g /\
  (Game.win g = true <->
   World.width (world 450) - 50
   < Player.x (Game.player g) + Player.w (Game.player g)).
Proof.
  intros g.
  assert (R : reachable 450 g) by (apply reachable_run; constructor).
  split; [exact R|]. exact (win_flag_is_goal_test 450 g R).
Defined.

(** ** Bounds on the motion (lines 150-208) *)

Section Motion.
Import Player.
Variable canvas_height : Q.
Variable keys : Keys.t.

(** The player after the horizontal phases: same vertical state, built as
    before, inside the world. *)
Lemma clamped_facts p :
  as_built p ->
  let c := clamp_x canvas_height (move_x (steer keys p)) in
  (y c = y p /\ vy c = vy p /\ onGround c = onGround p) /\
  as_built c /\ 0 <= x c /\ x c <= 2960.
Proof.
  intros B c. split; [apply horizontal_keeps_vertical|].
  assert (Bu : as_built (move_x (steer keys p))).
  { eapply as_built_dims; [|exact B]. now rewrite move_x_dims, steer_dims. }
  assert (Bc : as_built c).
  { eapply as_built_dims; [apply clamp_x_dims | exact Bu]. }
  split; [exact Bc|].
  destruct Bu as (Eu & _). destruct Bc as (Ec & _).
  assert (R := clamp_x_range canvas_height (move_x (steer keys p))).
  cbv zeta in R. fold c in R. rewrite Eu, Ec in R. simpl in R.
  assert (Hw : 0 <= 3000 - 40) by lra. specialize (R Hw). lra.
Qed.

(** The player after the jump test, gravity and the vertical move. *)
Lemma moved_facts c :
  let m := fall canvas_height (jump keys c) in
  (vy m == - jumpStrength c + 0.5 \/ vy m == vy c + 0.5) /\
  y m == y c + vy m /\ x m = x c /\ vx m = vx c /\ dims m = dims c.
Proof.
  unfold fall, jump. destruct (Keys.jump keys && onGround c); simpl;
    repeat split; (now left) || (now right).
Qed.

Lemma platform_tops plat :
  plat ∈ platforms canvas_height ->
  canvas_height - 250 <= Platform.y plat /\ Platform.y plat <= canvas_height - 50.
Proof.
  unfold platforms. intros In.
  repeat (apply elem_of_cons in In as [->|In]; [simpl; lra|]).
  now apply elem_of_nil in In.
Qed.

Lemma steer_within_speed p :
  as_built p -> -4 <= vx p -> vx p <= 4 ->
  -4 <= vx (steer keys p) /\ vx (steer keys p) <= 4.
Proof.
  intros (_ & _ & Es & _) L U. unfold steer.
  destruct (Keys.left keys), (Keys.right keys); simpl; rewrite ?Es; try lra.
  cmp_cases; simpl; lra.
Qed.

Lemma update_within_speed p :
  as_built p -> -4 <= vx p -> vx p <= 4 -> -11.5 <= vy p ->
  let p' := update canvas_height keys p in
  -4 <= vx p' /\ vx p' <= 4 /\ -11.5 <= vy p'.
Proof.
  intros B L U V p'.
  destruct (steer_within_speed p B L U) as [Ls Us].
  assert (Hv : -4 <= vx p' /\ vx p' <= 4).
  { destruct (update_x canvas_height keys p) as [[_ E]|[_ E]]; fold p' in E;
      rewrite E; [|lra].
    unfold clamp_x. cmp_cases; simpl; lra. }
  split; [apply Hv|]. split; [apply Hv|].
  destruct (clamped_facts p B) as ((_ & Ev & _) & (_ & _ & _ & Ej) & _).
  set (c := clamp_x canvas_height (move_x (steer keys p))) in *.
  destruct (moved_facts c) as (M & _).
  set (m := fall canvas_height (jump keys c)) in *.
  assert (Q0 : -11.5 <= vy (before_loop canvas_height keys p)).
  { unfold before_loop. fold c m. unfold fail_check.
    rewrite Ej, Ev in M.
    destruct (Qgtb _ _); [simpl; lra|].
    change (vy (set_onGround false m)) with (vy m). lra. }
  subst p'. rewrite update_unfold.
  destruct (fold_collide_last (platforms canvas_height)
              (before_loop canvas_height keys p))
    as [[_ R] | (n & plat & _ & _ & R)]; rewrite R; [exact Q0 | simpl; lra].
Qed.

(** One frame keeps the player on or above the ground and never sends it
    below the canvas. *)
Lemma frame_above_ground p :
  110 <= canvas_height ->
  as_built p ->
  y p + h p <= canvas_height - 50 ->
  y p + h p + vy p <= canvas_height - 50 ->
  let m := fall canvas_height
             (jump keys (clamp_x canvas_height (move_x (steer keys p)))) in
  let p' := update canvas_height keys p in
  (y m <= canvas_height - 109.5 /\ fail_check canvas_height m = m) /\
  y p' + h p' <= canvas_height - 50 /\
  y p' + h p' + vy p' <= canvas_height - 50.
Proof.
  intros HH B Hb Hbv m p'.
  destruct (clamped_facts p B) as ((Ey & Ev & _) & Bc & X0 & X1).
  set (c := clamp_x canvas_height (move_x (steer keys p))) in *.
  destruct (moved_facts c) as (M & My & Mx & _ & Md). fold m in M, My, Mx, Md.
  assert (Bm : as_built m) by (eapply as_built_dims; eauto).
  destruct Bc as (_ & _ & _ & Ej). destruct Bm as (Ew & Eh & _).
  destruct B as (_ & Ehp & _).
  rewrite Ej, Ev in M. rewrite Ey in My. rewrite Ehp in Hb, Hbv.
  assert (Ym : y m <= canvas_height - 109.5) by lra.
  assert (F : fail_check canvas_height m = m).
  { unfold fail_check.
    assert (E : (y m >? canvas_height + 200)%js = false)
      by (unfold Qgtb; apply Qltb_false; lra).
    now rewrite E. }
  split; [split; assumption|].
  subst p'. rewrite update_unfold. unfold before_loop. fold c m. rewrite F.
  set (q0 := set_onGround false m).
  destruct (fold_collide_last (platforms canvas_height) q0)
    as [[N R] | (n & plat & L & _ & R)]; rewrite R.
  - unfold platforms in N. apply Forall_cons in N as [N _].
    assert (G : ~ (0 <= vy q0 /\ 0 < x q0 + w q0 /\ x q0 < 0 + 3000 /\
                   y q0 + h q0 <= canvas_height - 50 + 5 /\
                   canvas_height - 50 <= y q0 + h q0 + vy q0)).
    { intros C.
      assert (T : lands_on q0 (Platform.new 0 (canvas_height - 50)
                                 (World.width (world canvas_height)) 50) = true)
        by (apply lands_on_iff; exact C).
      congruence. }
    change (x q0) with (x m) in *. change (y q0) with (y m) in *.
    change (w q0) with (w m) in *. change (h q0) with (h m) in *.
    change (vy q0) with (vy m) in *.
    rewrite Ew, Eh, Mx in *.
    destruct (Qlt_le_dec (vy m) 0) as [Neg|Pos]; [lra|].
    assert (T : y m + 60 + vy m < canvas_height - 50).
    { apply Qnot_le_lt. intros C. apply G. repeat split; lra. }
    lra.
  - destruct (fold_collide_same_frame (take n (platforms canvas_height)) q0)
      as (_ & Ehs & _).
    change (h q0) with (h m) in Ehs. rewrite Eh in Ehs.
    assert (P := platform_tops plat (list_elem_of_lookup_2 _ _ _ L)).
    unfold snap. simpl. rewrite Ehs. lra.
Qed.
End Motion.

Lemma reachable_within_speed canvas_height g :
  reachable canvas_height g -> within_speed g.
Proof.
  induction 1 as [|keys g R IH].
  - unfold within_speed. simpl. lra.
  - destruct (Game.win g) eqn:W.
    + now rewrite updateGame_won.
    + destruct (reachable_sound _ _ R) as (B & _).
      destruct IH as (L & U & V).
      unfold within_speed. rewrite updateGame_playing by exact W. game_fields.
      now apply update_within_speed.
Qed.

Lemma reachable_above_ground canvas_height g :
  110 <= canvas_height -> reachable canvas_height g -> above_ground canvas_height g.
Proof.
  intros HH. induction 1 as [|keys g R IH].
  - unfold above_ground. simpl. lra.
  - destruct (Game.win g) eqn:W.
    + now rewrite updateGame_won.
    + destruct (reachable_sound _ _ R) as (B & _).
      destruct IH as (Hb & Hbv).
      unfold above_ground. rewrite updateGame_playing by exact W. game_fields.
      now apply frame_above_ground.
Qed.

(** X4.  In every state of a game the horizontal speed is at most [speed] in
    either direction, and the player never rises faster than in the frame of
    a jump ([vy >= -jumpStrength + gravity]). *)
Theorem speed_is_bounded canvas_height g :
  reachable canvas_height g ->
  let p := Game.player g in
  - Player.speed p <= Player.vx p /\ Player.vx p <= Player.speed p /\
  - Player.jumpStrength p + World.gravity (world canvas_height) <= Player.vy p.
Proof.
  intros R p.
  destruct (reachable_sound _ _ R) as ((_ & _ & Es & Ej) & _).
  destruct (reachable_within_speed _ _ R) as (L & U & V).
  fold p in Es, Ej, L, U, V. rewrite Es, Ej. simpl. lra.
Qed.

Lemma speed_is_bounded_witness :
  let g := run 450 (replicate 36 idle ++ [go_right_jump]) (initial 450) in
  let p := Game.player g in
  reachable 450 g /\
  Player.vx p == 4 /\ Player.vy p == -11.5 /\
  - Player.speed p <= Player.vx p /\ Player.vx p <= Player.speed p /\
  - Player.jumpStrength p + World.gravity (world 450) <= Player.vy p.
Proof.
  intros g p.
  assert (R : reachable 450 g) by (apply reachable_run; constructor).
  split; [exact R|]. split; [vm_compute; reflexivity|].
  split; [vm_compute; reflexivity|].
  exact (speed_is_bounded 450 g R).
Defined.

(** X5.  On a canvas at least 110 high the player never gets below the
    ground: in every state of a game its bottom edge [y + h] is at or above
    the top of the ground platform, [canvas.height - 50]. *)
Theorem never_below_the_ground canvas_height g :
  110 <= canvas_height ->
  reachable canvas_height g ->
  Player.y (Game.player g) + Player.h (Game.player g) <= canvas_height - 50.
Proof.
  intros HH R. apply (reachable_above_ground canvas_height g HH R).
Qed.

Lemma never_below_the_ground_witness :
  let g := run 450 (replicate 100 go_right) (initial 450) in
  110 <= 450 /\ reachable 450 g /\
  Player.y (Game.player g) + Player.h (Game.player g) == 450 - 50 /\
  Player.y (Game.player g) + Player.h (Game.player g) <= 450 - 50.
Proof.
  intros g.
  assert (HH : 110 <= 450) by (vm_compute; discriminate).
  assert (R : reachable 450 g) by (apply reachable_run; constructor).
  split; [exact HH|]. split; [exact R|]. split; [vm_compute; reflexivity|].
  exact (never_below_the_ground 450 g HH R).
Defined.

(** X6.  On a canvas at least 110 high the respawn branch is never taken in
    a game: from every state of a game and for every key state, the [y]
    tested at line 189 is at most [canvas.height - 109.5], so the test fails
    and the player goes on to the platform loop as it is. *)
Theorem respawn_is_never_taken canvas_height keys g :
  110 <= canvas_height ->
  reachable canvas_height g ->
  let moved :=
    Player.fall canvas_height
      (Player.jump keys
         (Player.clamp_x canvas_height
            (Player.move_x (Player.steer keys (Game.player g))))) in
  Player.y moved <= canvas_height - 109.5 /\
  (Player.y moved >? canvas_height + 200)%js = false /\
  Player.fail_check canvas_height moved = moved.
Proof.
  intros HH R moved.
  destruct (reachable_sound _ _ R) as (B & _).
  destruct (reachable_above_ground _ _ HH R) as (Hb & Hbv).
  destruct (frame_above_ground canvas_height keys (Game.player g) HH B Hb Hbv)
    as ((Y & F) & _).
  fold moved in Y, F. split; [exact Y|]. split; [|exact F].
  unfold Qgtb. apply Qltb_false. lra.
Qed.

Lemma respawn_is_never_taken_witness :
  let g := run 450 (replicate 20 idle) (initial 450) in
  let moved :=
    Player.fall 450
      (Player.jump idle
         (Player.clamp_x 450 (Player.move_x (Player.steer idle (Game.player g))))) in
  110 <= 450 /\ reachable 450 g /\
  Player.y moved <= 450 - 109.5 /\
  (Player.y moved >? 450 + 200)%js = false /\
  Player.fail_check 450 moved = moved.
Proof.
  intros g moved.
  assert (HH : 110 <= 450) by (vm_compute; discriminate).
  assert (R : reachable 450 g) by (apply reachable_run; constructor).
  split; [exact HH|]. split; [exact R|].
  exact (respawn_is_never_taken 450 idle g HH R).
Defined.

(** X7.  On a canvas at least 110 high the player is never moved further
    than its speed allows: between any state of a game and the next, [x]
    changes by at most 4 plus the rounding [margin] of the sum
    [this.x += this.vx]. *)
Theorem one_frame_moves_at_most_speed canvas_height keys g :
  110 <= canvas_height ->
  reachable canvas_height g ->
  let x := Player.x (Game.player g) in
  let x' := Player.x (Game.player (updateGame canvas_height keys g)) in
  x - (4 + margin) <= x' /\ x' <= x + (4 + margin).
Proof.
  intros HH R x x'. subst x x'. unfold margin.
  destruct (Game.win g) eqn:W.
  { rewrite updateGame_won by exact W. lra. }
  rewrite updateGame_playing by exact W. game_fields.
  destruct (reachable_sound _ _ R) as (B & (X0 & X1) & _).
  destruct (reachable_within_speed _ _ R) as (L & U & _).
  destruct (respawn_is_never_taken canvas_height keys g HH R) as (_ & _ & F).
  set (p := Game.player g) in *.
  destruct (steer_within_speed keys p B L U) as [Ls Us].
  destruct (fold_collide_same_frame (platforms canvas_height)
              (Player.before_loop canvas_height keys p)) as (_ & _ & Ex & _).
  rewrite update_unfold, Ex. unfold Player.before_loop.
  change (Player.x (Player.set_onGround false ?q)) with (Player.x q).
  rewrite F.
  destruct (moved_facts canvas_height keys
              (Player.clamp_x canvas_height (Player.move_x (Player.steer keys p))))
    as (_ & _ & Ex' & _).
  rewrite Ex'.
  assert (Ew : Player.w (Player.move_x (Player.steer keys p)) = 40).
  { assert (D : dims (Player.move_x (Player.steer keys p)) = dims p)
      by now rewrite move_x_dims, steer_dims.
    destruct (as_built_dims _ _ D B) as (E & _). exact E. }
  destruct B as (Ewp & _). rewrite Ewp in X1. simpl in X1.
  clear F Ex Ex' R.
  set (u := Player.move_x (Player.steer keys p)) in *.
  assert (Es : Player.x (Player.steer keys p) = Player.x p).
  { unfold Player.steer.
    destruct (Keys.left keys), (Keys.right keys); simpl; try reflexivity.
    destruct (Qltb _ _); reflexivity. }
  assert (Eu : Player.x u = Player.x p + Player.vx (Player.steer keys p))
    by (unfold u, Player.move_x; simpl; now rewrite Es).
  unfold Player.clamp_x.
  change (World.width (world canvas_height)) with 3000.
  rewrite Ew. clearbody u.
  cmp_cases; cbn [Player.x Player.set_x Player.set_vx]; rewrite ?Eu in *; lra.
Qed.

Lemma one_frame_moves_at_most_speed_witness :
  let g := run 450 (replicate 12 go_left) (initial 450) in
  let x := Player.x (Game.player g) in
  let x' := Player.x (Game.player (updateGame 450 go_left g)) in
  110 <= 450 /\ reachable 450 g /\ x == 2 /\ x' == 0 /\
  x - (4 + margin) <= x' /\ x' <= x + (4 + margin).
Proof.
  intros g x x'.
  assert (HH : 110 <= 450) by (vm_compute; discriminate).
  assert (R : reachable 450 g) by (apply reachable_run; constructor).
  split; [exact HH|]. split; [exact R|].
  split; [vm_compute; reflexivity|]. split; [vm_compute; reflexivity|].
  exact (one_frame_moves_at_most_speed 450 go_left g HH R).
Defined.

Lemma rising_player_passes_platforms_witness :
  let p := Game.player (run 450 (replicate 36 idle) (initial 450)) in
  let q := Player.before_loop 450 press_jump p in
  Player.vy q < 0 /\
  Player.update 450 press_jump p = q /\
  Player.onGround (Player.update 450 press_jump p) = false.
Proof.
  intros p q.
  assert (V : Player.vy q < 0) by (vm_compute; reflexivity).
  split; [exact V|]. exact (rising_player_passes_platforms 450 press_jump p V).
Defined.

(** ** Friction (lines 161-165) *)

Lemma decay_nonneg n : 0 <= decay n.
Proof. induction n as [|n IH]; simpl; lra. Qed.

Lemma decay_step n : decay (S n) <= decay n.
Proof. assert (P := decay_nonneg n). simpl. lra. Qed.

Lemma decay_late n : (19 <= n)%nat -> decay n < 0.0625.
Proof.
  induction 1 as [|n L IH].
  - vm_compute. reflexivity.
  - assert (S := decay_step n). lra.
Qed.

(** One frame without a direction held shrinks the bound on [|vx|] by the
    factor 0.8, and stops the player when the bound is small. *)
Lemma idle_frame_slows canvas_height keys p b :
  Keys.left keys = false -> Keys.right keys = false ->
  - b <= Player.vx p -> Player.vx p <= b ->
  let p' := Player.update canvas_height keys p in
  (- (0.8 * b) <= Player.vx p' /\ Player.vx p' <= 0.8 * b) /\
  (b < 0.0625 -> Player.vx p' == 0).
Proof.
  intros L R Lo Hi p'.
  assert (S : (- (0.8 * b) <= Player.vx (Player.steer keys p) /\
               Player.vx (Player.steer keys p) <= 0.8 * b) /\
              (b < 0.0625 -> Player.vx (Player.steer keys p) == 0)).
  { unfold Player.steer. rewrite L, R. cbv beta iota zeta delta [negb].
    cmp_cases; cbn [Player.vx Player.set_vx].
    - split; [lra | intros _; reflexivity].
    - split; [lra|]. intros Small. exfalso.
      assert (A : Qabs (Player.vx p * 0.8) <= 0.8 * b)
        by (apply Qabs_Qle_condition; lra).
      cbn [Player.vx Player.set_vx] in E. lra. }
  destruct S as [[S1 S2] S3].
  assert (C : Player.vx p' = 0
              \/ Player.vx p' = Player.vx (Player.steer keys p)).
  { destruct (update_x canvas_height keys p) as [[_ E]|[_ E]]; fold p' in E;
      rewrite E; [|now left].
    unfold Player.clamp_x. cmp_cases; simpl; auto. }
  destruct C as [C|C]; rewrite C; split; try lra; intros; try reflexivity; auto.
Qed.

Lemma fold_left_cons {A B : Type} (f : A -> B -> A) (b : B) (l : list B) (a : A) :
  fold_left f (b :: l) a = fold_left f l (f a b).
Proof. reflexivity. Qed.

Lemma updates_cons canvas_height keys frames p :
  updates canvas_height (keys :: frames) p
  = updates canvas_height frames (Player.update canvas_height keys p).
Proof.
  exact (fold_left_cons (fun p keys => Player.update canvas_height keys p)
           keys frames p).
Qed.

Lemma idle_frames_slow canvas_height frames :
  Forall (fun keys => Keys.left keys = false /\ Keys.right keys = false) frames ->
  forall n p,
    - decay n <= Player.vx p -> Player.vx p <= decay n ->
    (20 <= n -> Player.vx p == 0)%nat ->
    let p' := updates canvas_height frames p in
    - decay (n + length frames) <= Player.vx p' /\
    Player.vx p' <= decay (n + length frames) /\
    (20 <= n + length frames -> Player.vx p' == 0)%nat.
Proof.
  induction 1 as [|keys frames [L R] F IH]; intros n p Lo Hi Z; cbv zeta.
  - unfold updates. cbn [fold_left length]. rewrite Nat.add_0_r. auto.
  - rewrite updates_cons, length_cons.
    replace (n + S (length frames))%nat with (S n + length frames)%nat by lia.
    destruct (idle_frame_slows canvas_height keys p (decay n) L R Lo Hi)
      as [[Lo' Hi'] Z'].
    apply IH; try assumption.
    intros Late. apply Z', decay_late. lia.
Qed.

(** X8.  Friction stops the player: starting with [|vx| <= speed], after 20
    or more frames in which neither left nor right is held, [vx] is exactly
    0 (whatever else happens in those frames: jumps, landings, the clamp). *)
Theorem friction_stops_the_player canvas_height frames p :
  Forall (fun keys => Keys.left keys = false /\ Keys.right keys = false) frames ->
  (20 <= length frames)%nat ->
  -4 <= Player.vx p -> Player.vx p <= 4 ->
  Player.vx (updates canvas_height frames p) == 0.
Proof.
  intros F N Lo Hi.
  destruct (idle_frames_slow canvas_height frames F 0 p) as (_ & _ & Z);
    simpl; try lra; [lia|].
  apply Z. simpl. exact N.
Qed.

Lemma friction_stops_the_player_witness :
  let p := Game.player all_collected in
  Forall (fun keys => Keys.left keys = false /\ Keys.right keys = false)
    (replicate 20 press_jump) /\
  (20 <= length (replicate 20 press_jump))%nat /\
  Player.vx p == 4 /\
  Player.vx (updates 450 (replicate 20 press_jump) p) == 0.
Proof.
  intros p.
  assert (F : Forall (fun keys => Keys.left keys = false /\ Keys.right keys = false)
                (replicate 20 press_jump)).
  { apply Forall_replicate. split; reflexivity. }
  assert (N : (20 <= length (replicate 20 press_jump))%nat)
    by (rewrite length_replicate; lia).
  split; [exact F|]. split; [exact N|]. split; [reflexivity|].
  apply (friction_stops_the_player 450 (replicate 20 press_jump) p F N);
    vm_compute; discriminate.
Defined.

(** ** Standing on a platform (lines 184-208) *)

Section Standing.
Import Player.

Lemma level_tops_apart canvas_height plat plat' :
  plat ∈ platforms canvas_height -> plat' ∈ platforms canvas_height ->
  apart plat plat'.
Proof.
  unfold platforms, apart. intros In In'.
  repeat (apply elem_of_cons in In as [->|In];
          [ repeat (apply elem_of_cons in In' as [->|In'];
                    [ first [ left; reflexivity | right; simpl; lra ] | ]);
            now apply elem_of_nil in In' | ]).
  now apply elem_of_nil in In.
Qed.

(** Once landed on [plat], the rest of the loop leaves the player there. *)
Lemma fold_collide_stays plat plats s :
  (forall plat', plat' ∈ plats -> apart plat plat') ->
  onGround s = true -> vy s == 0 -> y s + h s == Platform.y plat ->
  let r := fold_left collide plats s in
  onGround r = true /\ vy r == 0 /\ y r + h r == Platform.y plat.
Proof.
  revert s. induction plats as [|a l IH]; intros s A G V Y; cbv zeta.
  - simpl. auto.
  - simpl. apply IH.
    + intros plat' In. apply A. now right.
    + unfold collide. now destruct (lands_on s a).
    + unfold collide. destruct (lands_on s a); [reflexivity | exact V].
    + unfold collide. destruct (lands_on s a) eqn:T; [|exact Y].
      apply lands_on_iff in T.
      destruct (A a ltac:(now left)) as [->|Sep]; [simpl; lra|].
      exfalso. lra.
Qed.

(** A player half a unit into [plat], falling at 0.5, lands on [plat] and on
    nothing else. *)
Lemma fold_collide_lands plat plats q :
  (forall plat', plat' ∈ plats -> apart plat plat') ->
  plat ∈ plats ->
  lands_on q plat = true ->
  y q + h q == Platform.y plat + 0.5 -> vy q == 0.5 ->
  let r := fold_left collide plats q in
  onGround r = true /\ vy r == 0 /\ y r + h r == Platform.y plat.
Proof.
  induction plats as [|a l IH]; intros A In T Y V; cbv zeta.
  - now apply elem_of_nil in In.
  - simpl.
    assert (Al : forall plat', plat' ∈ l -> apart plat plat')
      by (intros plat' In'; apply A; now right).
    destruct (A a ltac:(now left)) as [->|Sep].
    + assert (C : collide q plat = snap plat q)
        by (unfold collide; now rewrite T).
      rewrite C.
      apply fold_collide_stays; [exact Al | reflexivity | reflexivity |].
      unfold snap. simpl. lra.
    + assert (M : lands_on q a = false).
      { destruct (lands_on q a) eqn:Ta; [|reflexivity].
        apply lands_on_iff in Ta. exfalso. lra. }
      assert (C : collide q a = q) by (unfold collide; now rewrite M).
      rewrite C. apply IH; try assumption.
      apply elem_of_cons in In as [->|In]; [exfalso; lra | exact In].
Qed.
End Standing.

(** X9.  Platforms hold the player: a player resting on a platform of the
    level ([vy] = 0, bottom edge on the platform top) that does not jump and
    is still over the platform after the frame's horizontal move ends the
    frame resting on that same platform, with [onGround] true. *)
Theorem platform_holds_the_player canvas_height keys p plat :
  Player.as_built p ->
  plat ∈ platforms canvas_height ->
  Keys.jump keys = false ->
  Player.vy p == 0 ->
  Player.y p + Player.h p == Platform.y plat ->
  let c := Player.clamp_x canvas_height (Player.move_x (Player.steer keys p)) in
  Platform.x plat < Player.x c + Player.w c ->
  Player.x c < Platform.x plat + Platform.w plat ->
  let p' := Player.update canvas_height keys p in
  Player.onGround p' = true /\ Player.vy p' == 0 /\
  Player.y p' + Player.h p' == Platform.y plat /\
  Player.x p' = Player.x c.
Proof.
  intros B In J V Y c X0 X1 p'.
  destruct (clamped_facts canvas_height keys p B) as ((Ey & Ev & _) & Bc & _).
  fold c in Ey, Ev, Bc.
  assert (Ej : Player.jump keys c = c) by (unfold Player.jump; now rewrite J).
  set (m := Player.fall canvas_height c).
  assert (Em : Player.y m = Player.y p + (Player.vy p + 0.5) /\
               Player.vy m = Player.vy p + 0.5 /\
               Player.x m = Player.x c /\ Player.w m = Player.w c /\
               Player.h m = Player.h p).
  { unfold m, Player.fall. simpl. rewrite Ey, Ev.
    destruct Bc as (_ & Ehc & _). destruct B as (_ & Ehp & _).
    rewrite Ehc, Ehp. repeat split. }
  destruct Em as (Emy & Emv & Emx & Emw & Emh).
  destruct (platform_tops canvas_height plat In) as [_ Top].
  destruct B as (_ & Ehp & _).
  assert (F : Player.fail_check canvas_height m = m).
  { unfold Player.fail_check.
    assert (E : (Player.y m >? canvas_height + 200)%js = false).
    { unfold Qgtb. apply Qltb_false. rewrite Emy. rewrite Ehp in Y. lra. }
    now rewrite E. }
  set (q0 := Player.set_onGround false m).
  assert (Q : Player.before_loop canvas_height keys p = q0).
  { unfold Player.before_loop. fold c. rewrite Ej. fold m. now rewrite F. }
  assert (T : Player.lands_on q0 plat = true).
  { apply lands_on_iff.
    change (Player.vy q0) with (Player.vy m).
    change (Player.x q0) with (Player.x m).
    change (Player.y q0) with (Player.y m).
    change (Player.w q0) with (Player.w m).
    change (Player.h q0) with (Player.h m).
    rewrite Emy, Emv, Emx, Emw, Emh. repeat split; lra. }
  subst p'. rewrite update_unfold, Q.
  destruct (fold_collide_lands plat (platforms canvas_height) q0) as (G & V' & Y').
  - intros plat' In'. now apply (level_tops_apart canvas_height).
  - exact In.
  - exact T.
  - change (Player.y q0) with (Player.y m).
    change (Player.h q0) with (Player.h m).
    rewrite Emy, Emh. lra.
  - change (Player.vy q0) with (Player.vy m). rewrite Emv. lra.
  - split; [exact G|]. split; [exact V'|]. split; [exact Y'|].
    destruct (fold_collide_same_frame (platforms canvas_height) q0)
      as (_ & _ & Ex & _).
    rewrite Ex. exact Emx.
Qed.

Lemma platform_holds_the_player_witness :
  let p := Game.player all_collected in
  let ground := Platform.new 0 (450 - 50) (World.width (world 450)) 50 in
  let c := Player.clamp_x 450 (Player.move_x (Player.steer go_right p)) in
  let p' := Player.update 450 go_right p in
  Player.as_built p /\ ground ∈ platforms 450 /\ Keys.jump go_right = false /\
  Player.vy p == 0 /\ Player.y p + Player.h p == Platform.y ground /\
  Platform.x ground < Player.x c + Player.w c /\
  Player.x c < Platform.x ground + Platform.w ground /\
  Player.onGround p' = true /\ Player.vy p' == 0 /\
  Player.y p' + Player.h p' == Platform.y ground /\
  Player.x p' = Player.x c.
Proof.
  intros p ground c p'.
  assert (B : Player.as_built p) by (repeat split).
  assert (In : ground ∈ platforms 450) by (unfold platforms; apply list_elem_of_here).
  assert (J : Keys.jump go_right = false) by reflexivity.
  assert (V : Player.vy p == 0) by reflexivity.
  assert (Y : Player.y p + Player.h p == Platform.y ground) by reflexivity.
  assert (X0 : Platform.x ground < Player.x c + Player.w c)
    by (vm_compute; reflexivity).
  assert (X1 : Player.x c < Platform.x ground + Platform.w ground)
    by (vm_compute; reflexivity).
  split; [exact B|]. split; [exact In|]. split; [exact J|].
  split; [exact V|]. split; [exact Y|]. split; [exact X0|]. split; [exact X1|].
  exact (platform_holds_the_player 450 go_right p ground B In J V Y X0 X1).
Defined.

(** ** The camera (lines 303-306, 218) *)

Lemma half (a : Q) : a / 2 == a * 0.5.
Proof. field. Qed.

(** X11.  The camera offset is never negative; when the canvas is not wider
    than the world it is at most [world.width - canvas.width], so the view
    stays inside the world; when the canvas is wider than the world it
    is 0. *)
Theorem camera_stays_in_world canvas_width canvas_height p :
  0 <= cameraX canvas_width canvas_height p /\
  (canvas_width <= World.width (world canvas_height) ->
   cameraX canvas_width canvas_height p
   <= World.width (world canvas_height) - canvas_width) /\
  (World.width (world canvas_height) < canvas_width ->
   cameraX canvas_width canvas_height p == 0).
Proof.
  unfold cameraX. cbv zeta.
  set (t := Player.x p + Player.w p / 2 - canvas_width / 2).
  set (hi := World.width (world canvas_height) - canvas_width).
  destruct (Q.min_spec t hi) as [[M1 M2]|[M1 M2]];
    destruct (Q.max_spec 0 (Qmin t hi)) as [[N1 N2]|[N1 N2]];
    rewrite N2; repeat split; intros; subst hi; simpl in *; lra.
Qed.

Lemma camera_stays_in_world_witness :
  let p := Game.player all_collected in
  800 <= World.width (world 450) /\
  cameraX 800 450 p == 2200 /\
  cameraX 800 450 p <= World.width (world 450) - 800.
Proof.
  intros p.
  assert (C : 800 <= World.width (world 450)) by (vm_compute; discriminate).
  split; [exact C|]. split; [vm_compute; reflexivity|].
  destruct (camera_stays_in_world 800 450 p) as (_ & U & _).
  exact (U C).
Defined.

(** X12.  The player is always drawn inside the canvas: in every state of a
    game, on a canvas wider than the player (at least 41) and not wider than
    the world, the body's left edge [x - cameraX] is at least 0 and its right
    edge at most [canvas.width]. *)
Theorem player_is_drawn_on_canvas canvas_width canvas_height g :
  reachable canvas_height g ->
  41 <= canvas_width -> canvas_width <= World.width (world canvas_height) ->
  let p := Game.player g in
  let left := drawX (cameraX canvas_width canvas_height p) p in
  0 <= left /\ left + Player.w p <= canvas_width.
Proof.
  intros R Lo Hi p.
  destruct (reachable_sound _ _ R) as ((Ew & _) & (X0 & X1) & _).
  fold p in Ew, X0, X1. rewrite Ew in *. simpl in Hi, X1.
  unfold drawX, cameraX. cbv zeta. rewrite Ew, !half. simpl.
  set (t := Player.x p + 40 * 0.5 - canvas_width * 0.5).
  destruct (Q.min_spec t (3000 - canvas_width)) as [[M1 M2]|[M1 M2]];
    destruct (Q.max_spec 0 (Qmin t (3000 - canvas_width))) as [[N1 N2]|[N1 N2]];
    rewrite N2; subst t; split; lra.
Qed.

Lemma player_is_drawn_on_canvas_witness :
  let g := run 450 (replicate 12 go_left) (initial 450) in
  let p := Game.player g in
  let left := drawX (cameraX 800 450 p) p in
  reachable 450 g /\ 41 <= 800 /\ 800 <= World.width (world 450) /\
  0 <= left /\ left + Player.w p <= 800.
Proof.
  intros g p left.
  assert (R : reachable 450 g) by (apply reachable_run; constructor).
  assert (Lo : 41 <= 800) by (vm_compute; discriminate).
  assert (Hi : 800 <= World.width (world 450)) by (vm_compute; discriminate).
  split; [exact R|]. split; [exact Lo|]. split; [exact Hi|].
  exact (player_is_drawn_on_canvas 800 450 g R Lo Hi).
Defined.

(** ** The level of [createLevel] (lines 247-268) *)

(** X13.  The level can be completed: on a canvas 450 high there is a
    sequence of key states, starting from the initial state, after which all
    eight coins are collected, the score is 80 and the game is won. *)
Theorem level_can_be_completed :
  exists frames,
    let g := run 450 frames (initial 450) in
    reachable 450 g /\
    Game.coins g = [] /\ Game.score g = 80%Z /\ Game.win g = true.
Proof.
  exists (playthrough ++ replicate 56 go_right). cbv zeta.
  split; [apply reachable_run; constructor|].
  rewrite at_the_goal_reached. repeat split.
Qed.
